(** * Source formatting utilities of the research assistant

    A shallow embedding of [src/assistant/utils.py] and the properties of
    its three functions:

    - [deduplicate_and_format_sources]: deduplicates search results by URL
      and renders them as one text report;
    - [format_sources]: renders a bullet list of titles and URLs;
    - [searxng_search]: forwards a query to the SearxNG client.

    The Python code works on dictionaries that it receives by reference and
    updates in place, it prints warnings, and it raises [KeyError] on a
    missing key.  The embedding therefore threads a [world] (the object
    store and the standard output) through a small state-and-exception
    monad. *)

From Stdlib Require Import ZArith Ascii String.
From stdpp Require Import base decidable option list gmap strings pretty.

Local Open Scope Z_scope.

(** ** Python values and strings *)

Module PyStr.

(** One [ascii] stands for one character of a Python [str]; the model
    covers the characters with code point below 256. *)

Definition nl : string := String "010"%char "".

(** [len(s)] *)
Definition len (s : string) : Z := Z.of_nat (String.length s).

Fixpoint take (n : nat) (s : string) : string :=
  match n, s with
  | O, _ => ""
  | S _, EmptyString => ""
  | S n', String c s' => String c (take n' s')
  end.

(** [s[:n]]: a negative bound counts from the end of the string. *)
Definition slice_to (s : string) (n : Z) : string :=
  if n <? 0 then take (Z.to_nat (len s + n)) s
  else take (Z.to_nat n) s.

(** [c.isspace()] for a character below 256: tab to carriage return,
    the four separators FS..US, the space, NEL and the no-break space. *)
Definition isspace (c : ascii) : bool :=
  let n := N_of_ascii c in
  ((9 <=? n) && (n <=? 13) || (28 <=? n) && (n <=? 32)
   || (n =? 133) || (n =? 160))%N.

Fixpoint lstrip (s : string) : string :=
  match s with
  | EmptyString => ""
  | String c s' => if isspace c then lstrip s' else s
  end.

Fixpoint rstrip (s : string) : string :=
  match s with
  | EmptyString => ""
  | String c s' =>
      match rstrip s' with
      | EmptyString => if isspace c then "" else String c ""
      | r => String c r
      end
  end.

(** [s.strip()] *)
Definition strip (s : string) : string := rstrip (lstrip s).

(** [sep.join(parts)] *)
Fixpoint join (sep : string) (parts : list string) : string :=
  match parts with
  | [] => ""
  | [p] => p
  | p :: ps => p +:+ sep +:+ join sep ps
  end.

(** Concatenation of a list of pieces, in order. *)
Fixpoint cat (parts : list string) : string :=
  match parts with
  | [] => ""
  | p :: ps => p +:+ cat ps
  end.

End PyStr.

(** The values stored in a search-result dictionary: a string or [None]. *)
Inductive pyval : Type :=
  | PyStr (s : string)
  | PyNone.

Global Instance pyval_eq_dec : EqDecision pyval.
Proof. solve_decision. Defined.

(** What an f-string writes for [{v}]. *)
Definition py_format (v : pyval) : string :=
  match v with
  | PyStr s => s
  | PyNone => "None"
  end.

(** ** The world: objects and standard output *)

(** A search result is a [dict] with string keys.  The caller's list holds
    references; [addr] is the identity of a dictionary object. *)
Definition addr := nat.

Record world : Type := World {
  objs : addr → gmap string pyval;
  stdout : list string
}.

Inductive exn : Type :=
  | KeyError (k : string).

Global Instance exn_eq_dec : EqDecision exn.
Proof. solve_decision. Defined.

(** A computation either raises or returns, and leaves a world behind. *)
Definition py (A : Type) : Type := world → world * (exn + A).

Global Instance py_ret : MRet py := λ A x w, (w, inr x).

Global Instance py_bind : MBind py := λ A B k c w,
  match c w with
  | (w', inr x) => k x w'
  | (w', inl e) => (w', inl e)
  end.

(** [d[k]] *)
Definition getitem (a : addr) (k : string) : py pyval :=
  λ w, match objs w a !! k with
       | Some v => (w, inr v)
       | None => (w, inl (KeyError k))
       end.

(** [d.get(k, default)] *)
Definition get_default (a : addr) (k : string) (default : pyval) : py pyval :=
  λ w, (w, inr (from_option id default (objs w a !! k))).

(** The store after [d[k] = v] on the object [a]. *)
Definition store (a : addr) (k : string) (v : pyval)
    (h : addr → gmap string pyval) : addr → gmap string pyval :=
  λ b, if decide (b = a) then <[k := v]> (h b) else h b.

(** [d[k] = v] *)
Definition setitem (a : addr) (k : string) (v : pyval) : py unit :=
  λ w, (World (store a k v (objs w)) (stdout w), inr tt).

(** [print(line)] *)
Definition print (line : string) : py unit :=
  λ w, (World (objs w) (stdout w ++ [line]), inr tt).

(** ** Insertion-ordered dictionaries

    [unique_sources] is a Python [dict] from URL values to source objects.
    Iteration over a [dict] follows insertion order, so it is kept as an
    association list in that order. *)

Module ODict.

Definition t : Type := list (pyval * addr).

(** [k in d] *)
Definition contains (k : pyval) (d : t) : bool :=
  bool_decide (k ∈ d.*1).

(** [d[k] = v]: a present key keeps its place, a new key goes last. *)
Fixpoint set (k : pyval) (v : addr) (d : t) : t :=
  match d with
  | [] => [(k, v)]
  | (k', v') :: d' =>
      if decide (k' = k) then (k', v) :: d' else (k', v') :: set k v d'
  end.

(** [d.values()] *)
Definition values (d : t) : list addr := d.*2.

End ODict.

(** ** [deduplicate_and_format_sources] *)

Import PyStr.

(** The body of the first loop, for one [source]. *)
Definition dedup_step (source : addr) (unique_sources : ODict.t)
    : py ODict.t :=
  link ← getitem source "link";
  setitem source "url" link;;
  snippet ← getitem source "snippet";
  setitem source "content" snippet;;
  url ← getitem source "url";
  if negb (ODict.contains url unique_sources) then
    url ← getitem source "url";
    mret (ODict.set url source unique_sources)
  else mret unique_sources.

(** [for source in sources_list: ...] *)
Fixpoint dedup_loop (sources_list : list addr) (unique_sources : ODict.t)
    : py ODict.t :=
  match sources_list with
  | [] => mret unique_sources
  | source :: rest =>
      unique_sources ← dedup_step source unique_sources;
      dedup_loop rest unique_sources
  end.

(** The raw-content branch of the second loop: the text it appends. *)
Definition raw_content_part (max_tokens_per_source : Z) (source : addr)
    : py string :=
  let char_limit := max_tokens_per_source * 4 in
  raw_content ← get_default source "raw_content" (PyStr "");
  raw_content ←
    match raw_content with
    | PyNone =>
        url ← getitem source "url";
        print ("Warning: No raw_content found for source " +:+ py_format url);;
        mret ""
    | PyStr s => mret s
    end;
  let raw_content :=
    if char_limit <? len raw_content
    then slice_to raw_content char_limit +:+ "... [truncated]"
    else raw_content in
  mret ("Full source content limited to " +:+ pretty max_tokens_per_source
        +:+ " tokens: " +:+ raw_content +:+ nl +:+ nl).

(** The body of the second loop, for one [source]. *)
Definition format_step (max_tokens_per_source : Z) (include_raw_content : bool)
    (source : addr) (formatted_text : string) : py string :=
  title ← getitem source "title";
  let formatted_text :=
    formatted_text +:+ ("Source " +:+ py_format title +:+ ":" +:+ nl
                        +:+ "===" +:+ nl) in
  url ← getitem source "url";
  let formatted_text :=
    formatted_text +:+ ("URL: " +:+ py_format url +:+ nl +:+ "===" +:+ nl) in
  content ← getitem source "content";
  let formatted_text :=
    formatted_text +:+ ("Most relevant content from source: "
                        +:+ py_format content +:+ nl +:+ "===" +:+ nl) in
  if include_raw_content then
    part ← raw_content_part max_tokens_per_source source;
    mret (formatted_text +:+ part)
  else mret formatted_text.

(** [for i, source in enumerate(unique_sources.values(), 1): ...] *)
Fixpoint format_loop (max_tokens_per_source : Z) (include_raw_content : bool)
    (sources : list addr) (formatted_text : string) : py string :=
  match sources with
  | [] => mret formatted_text
  | source :: rest =>
      formatted_text ←
        format_step max_tokens_per_source include_raw_content
                    source formatted_text;
      format_loop max_tokens_per_source include_raw_content rest formatted_text
  end.

Definition banner : string := "Sources:" +:+ nl +:+ nl.

Definition deduplicate_and_format_sources (search_response : list addr)
    (max_tokens_per_source : Z) (include_raw_content : bool) : py string :=
  let sources_list := search_response in
  unique_sources ← dedup_loop sources_list [];
  formatted_text ←
    format_loop max_tokens_per_source include_raw_content
                (ODict.values unique_sources) banner;
  mret (strip formatted_text).

(** ** [format_sources] *)

(** One element of the generator: [f"* {source['title']} : {source['url']}"]. *)
Definition bullet_line (source : addr) : py string :=
  title ← getitem source "title";
  url ← getitem source "url";
  mret ("* " +:+ py_format title +:+ " : " +:+ py_format url).

Fixpoint bullet_lines (search_results : list addr) : py (list string) :=
  match search_results with
  | [] => mret []
  | source :: rest =>
      line ← bullet_line source;
      lines ← bullet_lines rest;
      mret (line :: lines)
  end.

Definition format_sources (search_results : list addr) : py string :=
  lines ← bullet_lines search_results;
  mret (join nl lines).

(** ** The report, seen from the caller's records

    These definitions describe the outcome of
    [deduplicate_and_format_sources] in terms of the records as the caller
    passed them; the theorems below relate them to the code. *)

Abbreviation dict := (gmap string pyval).

(** The URL of a record as the backend delivers it. *)
Definition url_of (d : dict) : pyval := default PyNone (d !! "link").

(** The key the first loop deduplicates by, in the world [w]. *)
Abbreviation url_in w := (λ a : addr, url_of (objs w a)).

(** A record that has the two backend fields the first loop reads. *)
Definition keyed (d : dict) : Prop :=
  is_Some (d !! "link") ∧ is_Some (d !! "snippet").

Global Instance keyed_dec d : Decision (keyed d).
Proof. unfold keyed. apply _. Defined.

(** A record with every field the function looks up without a default. *)
Definition well_formed (d : dict) : Prop :=
  keyed d ∧ is_Some (d !! "title").

Global Instance well_formed_dec d : Decision (well_formed d).
Proof. unfold well_formed. apply _. Defined.

(** The record after the first loop: [url] and [content] are written from
    [link] and [snippet]. *)
Definition adapted (d : dict) : dict :=
  match d !! "link", d !! "snippet" with
  | Some link, Some snippet => <["content" := snippet]> (<["url" := link]> d)
  | _, _ => d
  end.

(** First-write-wins deduplication as the specification words it: a record
    is kept, and every later record with the same key is discarded. *)
Fixpoint first_seen (key : addr → pyval) (l : list addr) : list addr :=
  match l with
  | [] => []
  | a :: rest => a :: filter (λ b, key b ≠ key a) (first_seen key rest)
  end.

(** The three header lines of a block. *)
Definition header_text (title url content : pyval) : string :=
  "Source " +:+ py_format title +:+ ":" +:+ nl +:+ "===" +:+ nl
  +:+ "URL: " +:+ py_format url +:+ nl +:+ "===" +:+ nl
  +:+ "Most relevant content from source: " +:+ py_format content +:+ nl
  +:+ "===" +:+ nl.

Definition marker : string := "... [truncated]".

(** The raw-content line for a body [raw]. *)
Definition body_text (max_tokens_per_source : Z) (raw : string) : string :=
  "Full source content limited to " +:+ pretty max_tokens_per_source
  +:+ " tokens: " +:+ raw +:+ nl +:+ nl.

(** The body after the [None] replacement and the length check. *)
Definition clipped (max_tokens_per_source : Z) (raw : option pyval) : string :=
  let s := match raw with Some (PyStr s) => s | _ => "" end in
  if max_tokens_per_source * 4 <? len s
  then slice_to s (max_tokens_per_source * 4) +:+ marker
  else s.

Definition warning_line (url : pyval) : string :=
  "Warning: No raw_content found for source " +:+ py_format url.

(** The lines printed while one record is rendered. *)
Definition warnings (include_raw_content : bool) (url : pyval)
    (raw : option pyval) : list string :=
  match include_raw_content, raw with
  | true, Some PyNone => [warning_line url]
  | _, _ => []
  end.

(** The block of a record with the given fields. *)
Definition block (max_tokens_per_source : Z) (include_raw_content : bool)
    (title url content : pyval) (raw : option pyval) : string :=
  header_text title url content
  +:+ (if include_raw_content
       then body_text max_tokens_per_source (clipped max_tokens_per_source raw)
       else "").

(** The header lines of a caller's record. *)
Definition header_of (d : dict) : string :=
  header_text (default PyNone (d !! "title")) (url_of d)
              (default PyNone (d !! "snippet")).

(** The block of a caller's record. *)
Definition block_of (max_tokens_per_source : Z) (include_raw_content : bool)
    (d : dict) : string :=
  block max_tokens_per_source include_raw_content
        (default PyNone (d !! "title")) (url_of d)
        (default PyNone (d !! "snippet")) (d !! "raw_content").

Definition warnings_of (include_raw_content : bool) (d : dict) : list string :=
  warnings include_raw_content (url_of d) (d !! "raw_content").

(** The whole report for the records at [l] in the store [h]. *)
Definition report (max_tokens_per_source : Z) (include_raw_content : bool)
    (h : addr → dict) (l : list addr) : string :=
  strip (banner +:+
         cat ((λ a, block_of max_tokens_per_source include_raw_content (h a))
              <$> first_seen (λ a, url_of (h a)) l)).

(** Whether two space characters stand side by side somewhere in a
    string. *)
Fixpoint double_space (s : string) : bool :=
  match s with
  | EmptyString => false
  | String c s' =>
      match s' with
      | EmptyString => false
      | String c' _ =>
          (Ascii.eqb c " " && Ascii.eqb c' " ") || double_space s'
      end
  end.

(** The key whose lookup fails first in a record that is not [keyed]. *)
Definition missing_key (d : dict) : string :=
  match d !! "link" with
  | None => "link"
  | Some _ => "snippet"
  end.

(** The block and the printed lines of a record as the second loop finds
    it, with [url] and [content] in place. *)
Definition rendered (max_tokens_per_source : Z) (include_raw_content : bool)
    (d : dict) : string :=
  block max_tokens_per_source include_raw_content
        (default PyNone (d !! "title")) (default PyNone (d !! "url"))
        (default PyNone (d !! "content")) (d !! "raw_content").

Definition printed (include_raw_content : bool) (d : dict) : list string :=
  warnings include_raw_content (default PyNone (d !! "url"))
           (d !! "raw_content").

(** A record the second loop can render. *)
Definition renderable (d : dict) : Prop :=
  is_Some (d !! "title") ∧ is_Some (d !! "url") ∧ is_Some (d !! "content").

(** ** [searxng_search]

    The SearxNG client is a collaborator outside this repository.  It is
    taken as an interface: a wrapper is built from four settings, and its
    [results] method either raises the client's own exception or returns
    the list of results; the network it talks to is the state [net]. *)

Record searx_config : Type := SearxConfig {
  searx_host : string;
  unsecure : bool;
  k : Z;
  engines : list string
}.

Class SearxSearchWrapper (net client_exn result : Type) : Type := {
  results : searx_config → string → Z → bool →
            net → net * (client_exn + list result)
}.

Section gateway.
Context {net client_exn result : Type}.
Context `{!SearxSearchWrapper net client_exn result}.

Definition searxng_search (query : string) (include_raw_content : bool)
    (max_results : Z) : net → net * (client_exn + list result) :=
  let searx_search :=
    SearxConfig "http://127.0.0.1:8080" true max_results ["google"] in
  λ n,
    let ret := results searx_search query max_results include_raw_content n in
    ret.

End gateway.

(** A Python exception as the caller sees it: its class and its message. *)
Record py_exception : Type := PyException {
  exn_class : string;
  exn_message : string
}.

(** A client under observation: it behaves as [client] does, and counts
    the calls of [results] it receives. *)
Definition counted {net client_exn result : Type}
    (client : SearxSearchWrapper net client_exn result)
    : SearxSearchWrapper (net * nat) client_exn result :=
  {| results := λ cfg query num_results include_raw_content '(n, calls),
       let '(n', r) :=
         @results _ _ _ client cfg query num_results include_raw_content n in
       ((n', S calls), r) |}.

(** ** Example records *)

(** The store in which the object [i] is the [i]-th record of [ds]. *)
Definition store_of (ds : list dict) : addr → dict :=
  λ a, default ∅ (ds !! a).

Module Examples.

(** A raw body of 43 characters. *)
Definition rec_long : dict :=
  {[ "title" := PyStr "A"; "link" := PyStr "u1"; "snippet" := PyStr "s1";
     "raw_content" := PyStr "0123456789012345678901234567890123456789XYZ" ]}.

(** A raw body of exactly 40 characters. *)
Definition rec_exact : dict :=
  {[ "title" := PyStr "B"; "link" := PyStr "u2"; "snippet" := PyStr "s2";
     "raw_content" := PyStr "0123456789012345678901234567890123456789" ]}.

Definition rec_none : dict :=
  {[ "title" := PyStr "C"; "link" := PyStr "u3"; "snippet" := PyStr "s3";
     "raw_content" := PyNone ]}.

Definition rec_absent : dict :=
  {[ "title" := PyStr "D"; "link" := PyStr "u4"; "snippet" := PyStr "s4" ]}.

Definition rec_empty : dict :=
  {[ "title" := PyStr "E"; "link" := PyStr "u5"; "snippet" := PyStr "s5";
     "raw_content" := PyStr "" ]}.

(** A later record with the URL of [rec_long], and without a title. *)
Definition rec_dup_untitled : dict :=
  {[ "link" := PyStr "u1"; "snippet" := PyStr "other" ]}.

Definition rec_no_link : dict :=
  {[ "title" := PyStr "F"; "snippet" := PyStr "s6" ]}.

Definition rec_no_snippet : dict :=
  {[ "title" := PyStr "G"; "link" := PyStr "u7" ]}.

(** A record with a URL of its own, and without a title. *)
Definition rec_untitled : dict :=
  {[ "link" := PyStr "u8"; "snippet" := PyStr "s8";
     "raw_content" := PyNone ]}.

(** The records of the bullet-list example. *)
Definition bullet_A : dict := {[ "title" := PyStr "A"; "url" := PyStr "u1" ]}.
Definition bullet_B : dict := {[ "title" := PyStr "B"; "url" := PyStr "u2" ]}.

(** A short raw body that ends in white space. *)
Definition rec_trailing : dict :=
  {[ "title" := PyStr "T"; "link" := PyStr "u9"; "snippet" := PyStr "s9";
     "raw_content" := PyStr "body   " ]}.

(** A client whose request is refused: the HTTP library raises its
    [ConnectionError]. *)
Definition refused_client : SearxSearchWrapper unit py_exception dict :=
  {| results := λ _ _ _ _ n,
       (n, inl (PyException "ConnectionError" "connection refused")) |}.

(** A client that is refused on its first call and answers from the
    second call on; its state is the number of calls so far. *)
Definition flaky_client : SearxSearchWrapper nat py_exception dict :=
  {| results := λ _ _ _ _ calls,
       (S calls,
        match calls with
        | O => inl (PyException "ConnectionError" "connection refused")
        | S _ => inr [rec_exact; rec_long]
        end) |}.

End Examples.

(** * Properties *)

(** ** Strings *)

Section strings.
Implicit Types s t r : string.

Lemma app_cons_str c s t : String c s +:+ t = String c (s +:+ t).
Proof. reflexivity. Qed.

Lemma app_nil_l_str s : "" +:+ s = s.
Proof. reflexivity. Qed.

Lemma app_nil_r_str s : s +:+ "" = s.
Proof.
  induction s as [|c s IH]; [done |]. by rewrite app_cons_str, IH.
Qed.

Lemma app_assoc_str s t r : (s +:+ t) +:+ r = s +:+ (t +:+ r).
Proof.
  induction s as [|c s IH]; [done |]. by rewrite !app_cons_str, IH.
Qed.

Lemma cat_app (ps qs : list string) : cat (ps ++ qs) = cat ps +:+ cat qs.
Proof.
  induction ps as [|p ps IH]; simpl; [done |].
  by rewrite IH, app_assoc_str.
Qed.

Lemma take_length n s :
  (n ≤ String.length s)%nat → String.length (take n s) = n.
Proof.
  revert s. induction n as [|n IH]; intros [|c s] Hn; simpl in *;
    try done; try lia.
  rewrite IH; [done | lia].
Qed.

(** [take n s] is the part of [s] before position [n]. *)
Lemma take_prefix n s : ∃ rest, s = take n s +:+ rest.
Proof.
  revert s. induction n as [|n IH]; intros s.
  - by exists s.
  - destruct s as [|c s]; [by exists "" |].
    destruct (IH s) as [rest Hrest]. exists rest. simpl.
    by rewrite app_cons_str, <- Hrest.
Qed.

Lemma take_all n s : (String.length s ≤ n)%nat → take n s = s.
Proof.
  revert s. induction n as [|n IH]; intros [|c s] Hn; simpl in *;
    try done; try lia.
  rewrite IH; [done | lia].
Qed.

(** With a bound between [0] and [len s], [s[:n]] has exactly [n]
    characters. *)
Lemma slice_to_len s n : 0 ≤ n → n ≤ len s → len (slice_to s n) = n.
Proof.
  intros H0 Hn. unfold slice_to, len in *.
  destruct (Z.ltb_spec n 0) as [|_]; [lia |].
  rewrite take_length; lia.
Qed.

Lemma slice_to_prefix s n : ∃ rest, s = slice_to s n +:+ rest.
Proof. unfold slice_to. destruct (n <? 0); apply take_prefix. Qed.

Lemma rstrip_cons_nonspace c s :
  isspace c = false → rstrip (String c s) = String c (rstrip s).
Proof. intros Hc. simpl. rewrite Hc. by destruct (rstrip s). Qed.

(** Stripping on the right is idempotent. *)
Lemma rstrip_idemp s : rstrip (rstrip s) = rstrip s.
Proof.
  induction s as [|c s IH]; [done |]. simpl.
  destruct (rstrip s) as [|c' r] eqn:Hr.
  - destruct (isspace c) eqn:Hc; [done |]. simpl. by rewrite Hc.
  - change (rstrip (String c (String c' r))) with
      (match rstrip (String c' r) with
       | "" => if isspace c then "" else String c ""
       | r' => String c r'
       end).
    by rewrite IH.
Qed.

(** The last character of a right-stripped string is not a space. *)
Lemma rstrip_last s r c : rstrip s = r +:+ String c "" → isspace c = false.
Proof.
  revert r. induction s as [|c0 s IH]; intros r; simpl.
  - by destruct r.
  - destruct (rstrip s) as [|c' r'] eqn:Hr.
    + destruct (isspace c0) eqn:Hc0; [by destruct r |].
      destruct r as [|c1 [|c2 r]]; rewrite ?app_cons_str, ?app_nil_l_str;
        intros Heq; by simplify_eq.
    + destruct r as [|c1 r]; rewrite ?app_cons_str, ?app_nil_l_str;
        intros Heq; simplify_eq.
      by apply (IH r).
Qed.

End strings.

Section more_strings.
Implicit Types s t : string.

Lemma len_app s t : len (s +:+ t) = len s + len t.
Proof.
  unfold len. induction s as [|c s IH]; [by rewrite app_nil_l_str |].
  rewrite app_cons_str. simpl String.length. lia.
Qed.

Lemma take_length_le n s : (String.length (take n s) ≤ n)%nat.
Proof.
  revert s. induction n as [|n IH]; intros [|c s]; simpl; try lia.
  specialize (IH s). lia.
Qed.

Lemma app_not_empty s t : t ≠ "" → s +:+ t ≠ "".
Proof. by destruct s. Qed.

(** Stripping on the right leaves alone what comes before the last
    character that is not white space. *)
Lemma rstrip_app s t : rstrip t ≠ "" → rstrip (s +:+ t) = s +:+ rstrip t.
Proof.
  intros Ht. induction s as [|c s IH]; [done |].
  rewrite !app_cons_str. simpl. rewrite IH.
  pose proof (app_not_empty s (rstrip t) Ht) as Hne.
  by destruct (s +:+ rstrip t).
Qed.

(** White space at the end of a string is all that [rstrip] removes. *)
Lemma rstrip_app_space s t : rstrip t = "" → rstrip (s +:+ t) = rstrip s.
Proof.
  intros Ht. induction s as [|c s IH]; [done |].
  rewrite app_cons_str. simpl. by rewrite IH.
Qed.

Lemma double_space_app s t :
  double_space t = true → double_space (s +:+ t) = true.
Proof.
  intros Ht. induction s as [|c s IH]; [done |].
  rewrite app_cons_str. destruct (s +:+ t) as [|c' r]; [done |].
  change (double_space (String c (String c' r)))
    with ((Ascii.eqb c " " && Ascii.eqb c' " ")
          || double_space (String c' r)).
  rewrite IH. apply orb_true_r.
Qed.

End more_strings.

(** ** First-seen order *)

Section first_seen.
Context (key : addr → pyval).
Implicit Types l : list addr.

Lemma first_seen_sublist l : first_seen key l `sublist_of` l.
Proof.
  induction l as [|a l IH]; simpl; [done |].
  apply sublist_skip. etrans; [apply sublist_filter | done].
Qed.

Lemma first_seen_elem a l : a ∈ first_seen key l → a ∈ l.
Proof. intros Hin. eapply elem_of_sublist, first_seen_sublist. done. Qed.

(** No key is kept twice. *)
Lemma first_seen_NoDup l : NoDup (key <$> first_seen key l).
Proof.
  induction l as [|a l IH]; simpl; [constructor |].
  apply NoDup_cons. split.
  - intros (b & Hb & Hin)%list_elem_of_fmap.
    apply list_elem_of_filter in Hin as [Hne _]. congruence.
  - eapply sublist_NoDup; [exact IH |].
    apply fmap_sublist, sublist_filter.
Qed.

(** Every key of the input is kept. *)
Lemma first_seen_covers a l : a ∈ l → key a ∈ key <$> first_seen key l.
Proof.
  induction l as [|b l IH]; [by intros ?%elem_of_nil |].
  intros [->|Hin]%elem_of_cons; simpl; [by left |].
  destruct (decide (key a = key b)) as [->|Hne]; [by left |].
  right. apply IH in Hin as (c & Hc & Hin)%list_elem_of_fmap.
  apply list_elem_of_fmap. exists c. split; [done |].
  apply list_elem_of_filter. split; [congruence | done].
Qed.

(** A kept record is the first one of the input with its key. *)
Lemma first_seen_first a l :
  a ∈ first_seen key l →
  ∃ pre post, l = pre ++ a :: post ∧ key a ∉ key <$> pre.
Proof.
  induction l as [|b l IH]; [by intros ?%elem_of_nil |].
  simpl. intros [->|Hin]%elem_of_cons.
  - exists [], l. split; [done | apply not_elem_of_nil].
  - apply list_elem_of_filter in Hin as [Hne Hin].
    destruct (IH Hin) as (pre & post & -> & Hfresh).
    exists (b :: pre), post. split; [done |].
    rewrite fmap_cons. apply not_elem_of_cons. done.
Qed.

Lemma filter_first_seen_absorb (P : addr → Prop) `{!∀ a, Decision (P a)}
    (b : addr) l :
  ¬ P b → (∀ a, key a = key b → ¬ P a) →
  filter P (filter (λ a, key a ≠ key b) l) = filter P l.
Proof.
  intros _ Hkey. rewrite list_filter_filter. apply list_filter_iff.
  intros a. split; [by intros [? _] |]. intros HP. split; [done |].
  intros Heq. by apply (Hkey a).
Qed.

Lemma first_seen_app l1 l2 :
  first_seen key (l1 ++ l2)
  = first_seen key l1
    ++ filter (λ a, key a ∉ key <$> l1) (first_seen key l2).
Proof.
  induction l1 as [|b l1 IH]; simpl.
  - symmetry. induction (first_seen key l2) as [|a l IHl]; [done |].
    rewrite filter_cons_True; [by rewrite IHl | apply not_elem_of_nil].
  - f_equal. rewrite IH, filter_app. f_equal.
    rewrite list_filter_filter. apply list_filter_iff. intros a.
    rewrite not_elem_of_cons. tauto.
Qed.


End first_seen.

Lemma filter_iff_elem (P Q : addr → Prop)
    `{!∀ a, Decision (P a), !∀ a, Decision (Q a)} (l : list addr) :
  (∀ a, a ∈ l → (P a ↔ Q a)) → filter P l = filter Q l.
Proof.
  induction l as [|b l IH]; intros Hiff; [done |].
  rewrite !filter_cons.
  assert (filter P l = filter Q l) as ->
    by (apply IH; intros c Hc; apply Hiff; by right).
  destruct (decide (P b)) as [HP|HP], (decide (Q b)) as [HQ|HQ]; try done.
  - destruct HQ. by apply (Hiff b); [left |].
  - destruct HP. by apply (Hiff b); [left |].
Qed.

Lemma first_seen_ext (k1 k2 : addr → pyval) (l : list addr) :
  (∀ a, a ∈ l → k1 a = k2 a) → first_seen k1 l = first_seen k2 l.
Proof.
  induction l as [|a l IH]; intros Hk; simpl; [done |].
  f_equal. rewrite IH by (intros b Hb; apply Hk; by right).
  apply filter_iff_elem. intros b Hb%first_seen_elem.
  rewrite (Hk a) by (by left). rewrite (Hk b) by (by right). done.
Qed.

(** ** The object store *)

Section store.
Implicit Types (h : addr → dict) (d : dict) (a b : addr).

Lemma store_same a k v h : store a k v h a = <[k := v]> (h a).
Proof. unfold store. by rewrite decide_True. Qed.

Lemma store_other a b k v h : b ≠ a → store a k v h b = h b.
Proof. intros Hne. unfold store. by rewrite decide_False. Qed.

Lemma store_lookup_ne a b k k' v h :
  k' ≠ k → store a k v h b !! k' = h b !! k'.
Proof.
  intros Hne. unfold store. case_decide; [|done].
  by rewrite lookup_insert_ne.
Qed.

Lemma adapted_keyed d link snippet :
  d !! "link" = Some link → d !! "snippet" = Some snippet →
  adapted d = <["content" := snippet]> (<["url" := link]> d).
Proof. intros Hl Hs. unfold adapted. by rewrite Hl, Hs. Qed.

(** The first loop touches the keys [url] and [content] only. *)
Lemma adapted_lookup_ne d k :
  k ≠ "url" → k ≠ "content" → adapted d !! k = d !! k.
Proof.
  intros Hu Hc. unfold adapted.
  destruct (d !! "link"), (d !! "snippet"); try done.
  by rewrite !lookup_insert_ne.
Qed.

Lemma adapted_idemp d : adapted (adapted d) = adapted d.
Proof.
  unfold adapted at 1. rewrite !adapted_lookup_ne by done.
  unfold adapted.
  destruct (d !! "link") as [link|], (d !! "snippet") as [snippet|];
    try done.
  apply map_eq. intros k.
  destruct (decide (k = "content")) as [->|Hc];
    [by rewrite !lookup_insert_eq |].
  rewrite !(lookup_insert_ne _ "content") by done.
  destruct (decide (k = "url")) as [->|Hu];
    [by rewrite !lookup_insert_eq |].
  by rewrite !(lookup_insert_ne _ "url"), !lookup_insert_ne by done.
Qed.

Lemma keyed_adapted d : keyed (adapted d) ↔ keyed d.
Proof. unfold keyed. by rewrite !adapted_lookup_ne. Qed.

Lemma url_of_adapted d : url_of (adapted d) = url_of d.
Proof. unfold url_of. by rewrite adapted_lookup_ne. Qed.

Lemma adapted_url d : keyed d → adapted d !! "url" = Some (url_of d).
Proof.
  intros [[link Hl] [snippet Hs]]. unfold url_of.
  rewrite (adapted_keyed _ _ _ Hl Hs), Hl.
  by rewrite lookup_insert_ne, lookup_insert_eq.
Qed.

Lemma adapted_content d :
  keyed d → adapted d !! "content" = Some (default PyNone (d !! "snippet")).
Proof.
  intros [[link Hl] [snippet Hs]].
  rewrite (adapted_keyed _ _ _ Hl Hs), Hs.
  by rewrite lookup_insert_eq.
Qed.

End store.

(** ** Running the primitives *)

Section run.
Context {A B : Type}.
Implicit Types (w : world) (a : addr) (k : string).

Lemma run_bind (c : py A) (f : A → py B) w :
  (c ≫= f) w
  = match c w with
    | (w', inr x) => f x w'
    | (w', inl e) => (w', inl e)
    end.
Proof. reflexivity. Qed.

Lemma run_bind_ret (x : A) (f : A → py B) w : (mret x ≫= f) w = f x w.
Proof. reflexivity. Qed.

Lemma run_getitem_Some a k v (f : pyval → py B) w :
  objs w a !! k = Some v → (getitem a k ≫= f) w = f v w.
Proof. intros H. unfold mbind, py_bind, getitem. by rewrite H. Qed.

Lemma run_getitem_None a k (f : pyval → py B) w :
  objs w a !! k = None → (getitem a k ≫= f) w = (w, inl (KeyError k)).
Proof. intros H. unfold mbind, py_bind, getitem. by rewrite H. Qed.

Lemma run_get_default a k v (f : pyval → py B) w :
  (get_default a k v ≫= f) w = f (from_option id v (objs w a !! k)) w.
Proof. reflexivity. Qed.

Lemma run_setitem a k v (f : unit → py B) w :
  (setitem a k v ≫= f) w
  = f tt (World (store a k v (objs w)) (stdout w)).
Proof. reflexivity. Qed.

Lemma run_print line (f : unit → py B) w :
  (print line ≫= f) w = f tt (World (objs w) (stdout w ++ [line])).
Proof. reflexivity. Qed.

End run.

(** ** The first loop *)

Section dedup.
Implicit Types (u : ODict.t) (w : world) (l : list addr).

Lemma ODict_set_fresh k v u : k ∉ u.*1 → ODict.set k v u = u ++ [(k, v)].
Proof.
  induction u as [|[k' v'] u IH]; simpl; [done |].
  intros [Hne Hk]%not_elem_of_cons.
  rewrite decide_False by done. by rewrite IH.
Qed.

(** One round for a record that has [link] and [snippet]. *)
Lemma dedup_step_ok a u w link snippet :
  objs w a !! "link" = Some link →
  objs w a !! "snippet" = Some snippet →
  dedup_step a u w
  = (World (store a "content" snippet (store a "url" link (objs w)))
           (stdout w),
     inr (if decide (link ∈ u.*1) then u else u ++ [(link, a)])).
Proof.
  intros Hl Hs. unfold dedup_step.
  rewrite (run_getitem_Some _ _ link) by done. rewrite run_setitem.
  rewrite (run_getitem_Some _ _ snippet)
    by (cbn [objs]; by rewrite store_lookup_ne).
  rewrite run_setitem.
  rewrite (run_getitem_Some _ _ link)
    by (cbn [objs]; by rewrite store_lookup_ne, store_same,
          lookup_insert_eq).
  unfold ODict.contains. destruct (decide (link ∈ u.*1)) as [Hin|Hin].
  - by rewrite bool_decide_eq_true_2.
  - rewrite bool_decide_eq_false_2 by done. cbn [negb].
    rewrite (run_getitem_Some _ _ link)
      by (cbn [objs]; by rewrite store_lookup_ne, store_same,
            lookup_insert_eq).
    by rewrite ODict_set_fresh.
Qed.

Lemma dedup_step_no_link a u w :
  objs w a !! "link" = None →
  dedup_step a u w = (w, inl (KeyError "link")).
Proof.
  intros Hl. unfold dedup_step. by rewrite run_getitem_None.
Qed.

Lemma dedup_step_no_snippet a u w link :
  objs w a !! "link" = Some link →
  objs w a !! "snippet" = None →
  dedup_step a u w
  = (World (store a "url" link (objs w)) (stdout w),
     inl (KeyError "snippet")).
Proof.
  intros Hl Hs. unfold dedup_step.
  rewrite (run_getitem_Some _ _ link) by done. rewrite run_setitem.
  by rewrite run_getitem_None by (cbn [objs]; by rewrite store_lookup_ne).
Qed.

(** The store after one round, record by record. *)
Lemma step_store a b w link snippet :
  objs w a !! "link" = Some link →
  objs w a !! "snippet" = Some snippet →
  store a "content" snippet (store a "url" link (objs w)) b
  = if decide (b = a) then adapted (objs w a) else objs w b.
Proof.
  intros Hl Hs. case_decide as Hb.
  - subst b. by rewrite !store_same, (adapted_keyed _ _ _ Hl Hs).
  - by rewrite !store_other.
Qed.

(** The list part of one round of the first loop. *)
Lemma retained_step (key : addr → pyval) a u l :
  (if decide (key a ∈ u.*1) then u else u ++ [(key a, a)])
  ++ ((λ b, (key b, b)) <$>
      filter (λ b, key b ∉
                (if decide (key a ∈ u.*1) then u else u ++ [(key a, a)]).*1)
             (first_seen key l))
  = u ++ ((λ b, (key b, b)) <$>
          filter (λ b, key b ∉ u.*1) (first_seen key (a :: l))).
Proof.
  simpl. destruct (decide (key a ∈ u.*1)) as [Hin|Hin].
  - rewrite filter_cons_False by (intros Hn; by apply Hn).
    rewrite filter_first_seen_absorb; [done | by intros Hn; apply Hn |].
    intros b -> Hn. by apply Hn.
  - rewrite filter_cons_True by done.
    rewrite <- app_assoc. f_equal. simpl. f_equal. f_equal.
    rewrite list_filter_filter. apply list_filter_iff. intros b.
    rewrite fmap_app, not_elem_of_app. simpl.
    by rewrite list_elem_of_singleton.
Qed.

(** The first loop on records that all have [link] and [snippet]: it
    returns the first-seen records in order, prints nothing, and writes
    [url] and [content] into every record of the list. *)
Lemma dedup_loop_ok (key : addr → pyval) l : ∀ u w,
  (∀ a, url_of (objs w a) = key a) →
  Forall (λ a, keyed (objs w a)) l →
  ∃ w',
    dedup_loop l u w
    = (w', inr (u ++ ((λ a, (key a, a)) <$>
                      filter (λ a, key a ∉ u.*1) (first_seen key l))))
    ∧ stdout w' = stdout w
    ∧ ∀ b, objs w' b
           = if decide (b ∈ l) then adapted (objs w b) else objs w b.
Proof.
  induction l as [|a l IH]; intros u w Hkey Hl.
  - exists w. split; [simpl; by rewrite app_nil_r |]. split; [done |].
    intros b. case_decide as Hb; [by apply elem_of_nil in Hb | done].
  - apply Forall_cons in Hl as [[[link Hlk] [snippet Hsn]] Hl].
    assert (key a = link) as Hka.
    { rewrite <- Hkey. unfold url_of. by rewrite Hlk. }
    pose proof (dedup_step_ok a u w link snippet Hlk Hsn) as Hstep.
    set (w1 := World (store a "content" snippet
                        (store a "url" link (objs w))) (stdout w)) in *.
    assert (∀ b, objs w1 b
                 = if decide (b = a) then adapted (objs w a) else objs w b)
      as Hw1 by (intros b; by apply step_store).
    destruct (IH (if decide (link ∈ u.*1) then u else u ++ [(link, a)]) w1)
      as (w' & Hrun & Hout & Hobjs).
    { intros b. rewrite Hw1. destruct (decide (b = a)) as [->|Hne]; [|done].
      by rewrite url_of_adapted. }
    { eapply Forall_impl; [exact Hl |]. intros b Hb. simpl in Hb.
      rewrite Hw1. destruct (decide (b = a)) as [->|Hne]; [|done].
      by apply keyed_adapted. }
    exists w'. split; [|split; [done |]].
    + change (dedup_loop (a :: l) u w)
        with ((dedup_step a u ≫= λ u', dedup_loop l u') w).
      rewrite run_bind, Hstep, Hrun. f_equal. f_equal.
      rewrite <- Hka. apply retained_step.
    + intros b. rewrite Hobjs, !Hw1.
      destruct (decide (b = a)) as [->|Hne].
      * rewrite (decide_True (P := a ∈ a :: l)) by (by left).
        destruct (decide (a ∈ l)); [by rewrite adapted_idemp | done].
      * destruct (decide (b ∈ l)) as [Hin|Hin].
        -- rewrite decide_True; [done | by right].
        -- rewrite decide_False; [done |].
           by intros [?|?]%elem_of_cons.
Qed.

End dedup.

(** A list with an element that fails a decidable test splits at the first
    such element. *)
Lemma first_failure {X} (P : X → Prop) `{!∀ x, Decision (P x)} (l : list X) :
  ¬ Forall P l → ∃ pre a post, l = pre ++ a :: post ∧ Forall P pre ∧ ¬ P a.
Proof.
  induction l as [|x l IH]; intros Hn; [by destruct Hn |].
  destruct (decide (P x)) as [HP|HP].
  - destruct IH as (pre & a & post & -> & Hpre & Ha).
    { intros Hl. apply Hn. by constructor. }
    exists (x :: pre), a, post. split; [done |]. split; [by constructor | done].
  - exists [], x, l. split; [done |]. split; [constructor | done].
Qed.

Section dedup_errors.
Implicit Types (u : ODict.t) (w : world) (l : list addr).

Lemma dedup_step_not_keyed a u w :
  ¬ keyed (objs w a) →
  (dedup_step a u w).2 = inl (KeyError (missing_key (objs w a))).
Proof.
  intros Hn. unfold missing_key.
  destruct (objs w a !! "link") as [link|] eqn:Hl.
  - destruct (objs w a !! "snippet") as [snippet|] eqn:Hs.
    + destruct Hn. split; by eexists.
    + by rewrite (dedup_step_no_snippet _ _ _ link).
  - by rewrite dedup_step_no_link.
Qed.

(** The first loop stops at the first record without [link] or [snippet],
    with the [KeyError] of the lookup that failed. *)
Lemma dedup_loop_err pre a post : ∀ u w,
  Forall (λ b, keyed (objs w b)) pre →
  ¬ keyed (objs w a) →
  (dedup_loop (pre ++ a :: post) u w).2
  = inl (KeyError (missing_key (objs w a))).
Proof.
  induction pre as [|b pre IH]; intros u w Hpre Ha.
  - change (dedup_loop ([] ++ a :: post) u w)
      with ((dedup_step a u ≫= λ u', dedup_loop post u') w).
    rewrite run_bind.
    pose proof (dedup_step_not_keyed a u w Ha) as Hstep.
    destruct (dedup_step a u w) as [w1 [e|u1]]; simpl in *; congruence.
  - apply Forall_cons in Hpre as [[[link Hlk] [snippet Hsn]] Hpre].
    change (dedup_loop ((b :: pre) ++ a :: post) u w)
      with ((dedup_step b u ≫= λ u', dedup_loop (pre ++ a :: post) u') w).
    rewrite run_bind, (dedup_step_ok b u w link snippet Hlk Hsn).
    set (w1 := World _ _).
    assert (∀ c, objs w1 c
                 = if decide (c = b) then adapted (objs w b) else objs w c)
      as Hw1 by (intros c; by apply step_store).
    assert (∀ c key, key ≠ "url" → key ≠ "content" →
                     objs w1 c !! key = objs w c !! key) as Hsame.
    { intros c key Hu Hc. rewrite Hw1.
      destruct (decide (c = b)) as [->|Hne]; [|done].
      by apply adapted_lookup_ne. }
    rewrite IH.
    + unfold missing_key. by rewrite Hsame.
    + eapply Forall_impl; [exact Hpre |]. intros c Hc. unfold keyed in *.
      by rewrite !Hsame.
    + unfold keyed in *. by rewrite !Hsame.
Qed.

End dedup_errors.

(** ** The second loop *)

Section format.
Context (m : Z) (inc : bool).
Implicit Types (w : world) (a : addr) (txt : string).

Lemma world_eta w : World (objs w) (stdout w) = w.
Proof. by destruct w. Qed.

Lemma raw_content_part_ok a w url :
  objs w a !! "url" = Some url →
  raw_content_part m a w
  = (World (objs w) (stdout w ++ warnings true url (objs w a !! "raw_content")),
     inr (body_text m (clipped m (objs w a !! "raw_content")))).
Proof.
  intros Hu. unfold raw_content_part. rewrite run_get_default.
  destruct (objs w a !! "raw_content") as [[s|]|] eqn:Hraw; simpl.
  - rewrite run_bind_ret. rewrite app_nil_r, world_eta. done.
  - rewrite run_bind.
    rewrite (run_getitem_Some _ _ url) by done.
    rewrite run_print. done.
  - rewrite run_bind_ret. rewrite app_nil_r, world_eta. done.
Qed.

(** One round of the second loop appends the block of the record and
    prints its warning, if any. *)
Lemma format_step_ok a txt w title url content :
  objs w a !! "title" = Some title →
  objs w a !! "url" = Some url →
  objs w a !! "content" = Some content →
  format_step m inc a txt w
  = (World (objs w) (stdout w ++ warnings inc url (objs w a !! "raw_content")),
     inr (txt +:+ block m inc title url content (objs w a !! "raw_content"))).
Proof.
  intros Ht Hu Hc. unfold format_step.
  rewrite (run_getitem_Some _ _ title) by done.
  rewrite (run_getitem_Some _ _ url) by done.
  rewrite (run_getitem_Some _ _ content) by done.
  unfold block, header_text. destruct inc.
  - rewrite run_bind, (raw_content_part_ok _ _ url) by done.
    unfold mret, py_ret. by rewrite !app_assoc_str.
  - unfold mret, py_ret, warnings.
    rewrite app_nil_r, world_eta. by rewrite !app_assoc_str, app_nil_r_str.
Qed.

Lemma format_step_rendered a txt w :
  renderable (objs w a) →
  format_step m inc a txt w
  = (World (objs w) (stdout w ++ printed inc (objs w a)),
     inr (txt +:+ rendered m inc (objs w a))).
Proof.
  intros ([title Ht] & [url Hu] & [content Hc]).
  rewrite (format_step_ok _ _ _ title url content) by done.
  unfold printed, rendered. by rewrite Ht, Hu, Hc.
Qed.

Lemma format_step_no_title a txt w :
  objs w a !! "title" = None →
  format_step m inc a txt w = (w, inl (KeyError "title")).
Proof. intros Ht. unfold format_step. by rewrite run_getitem_None. Qed.

Lemma format_loop_cons a us txt w :
  format_loop m inc (a :: us) txt w
  = match format_step m inc a txt w with
    | (w', inr txt') => format_loop m inc us txt' w'
    | (w', inl e) => (w', inl e)
    end.
Proof. reflexivity. Qed.

(** The second loop on renderable records: the blocks are appended in the
    order of the list, and the store is left alone. *)
Lemma format_loop_ok us : ∀ txt w,
  Forall (λ a, renderable (objs w a)) us →
  format_loop m inc us txt w
  = (World (objs w)
           (stdout w ++ concat ((λ a, printed inc (objs w a)) <$> us)),
     inr (txt +:+ cat ((λ a, rendered m inc (objs w a)) <$> us))).
Proof.
  induction us as [|a us IH]; intros txt w Hus.
  - simpl. by rewrite app_nil_r, world_eta, app_nil_r_str.
  - apply Forall_cons in Hus as [Ha Hus].
    rewrite format_loop_cons, (format_step_rendered _ _ _ Ha).
    rewrite IH by done. cbn [objs stdout fmap list_fmap concat cat].
    by rewrite app_assoc, app_assoc_str.
Qed.

(** The second loop stops at the first record without a title. *)
Lemma format_loop_err pre a post : ∀ txt w,
  Forall (λ b, renderable (objs w b)) pre →
  objs w a !! "title" = None →
  (format_loop m inc (pre ++ a :: post) txt w).2 = inl (KeyError "title").
Proof.
  induction pre as [|b pre IH]; intros txt w Hpre Ha.
  - simpl app. by rewrite format_loop_cons, format_step_no_title.
  - apply Forall_cons in Hpre as [Hb Hpre].
    change ((b :: pre) ++ a :: post) with (b :: (pre ++ a :: post)).
    rewrite format_loop_cons, (format_step_rendered _ _ _ Hb).
    by apply IH.
Qed.

End format.

(** ** The whole function *)

Section whole.
Context (m : Z) (inc : bool).
Implicit Types (w : world) (l : list addr).

(** The key the first loop deduplicates by. *)
Lemma values_retained (key : addr → pyval) (xs : list addr) :
  ODict.values
    ([] ++ ((λ a, (key a, a)) <$> filter (λ a, key a ∉ ([] : ODict.t).*1) xs))
  = xs.
Proof.
  assert (filter (λ a, key a ∉ ([] : ODict.t).*1) xs = xs) as ->.
  { induction xs as [|x xs IH]; [done |].
    rewrite filter_cons_True by apply not_elem_of_nil. by rewrite IH. }
  unfold ODict.values. rewrite app_nil_l.
  induction xs as [|x xs IH]; [done |]. rewrite !fmap_cons. by rewrite IH.
Qed.

Lemma rendered_adapted (d : dict) :
  keyed d → rendered m inc (adapted d) = block_of m inc d.
Proof.
  intros Hk. unfold rendered, block_of.
  rewrite adapted_url, adapted_content by done.
  by rewrite !adapted_lookup_ne by done.
Qed.

Lemma printed_adapted (d : dict) :
  keyed d → printed inc (adapted d) = warnings_of inc d.
Proof.
  intros Hk. unfold printed, warnings_of.
  rewrite adapted_url by done. by rewrite adapted_lookup_ne by done.
Qed.

Lemma renderable_adapted (d : dict) :
  keyed d → is_Some (d !! "title") → renderable (adapted d).
Proof.
  intros Hk Ht. unfold renderable.
  rewrite adapted_url, adapted_content, adapted_lookup_ne by done. eauto.
Qed.

(** On records that all have [link] and [snippet], and a title where the
    record is kept, the function returns the report of the caller's
    records, prints the warnings of the kept records in order, and leaves
    [url] and [content] written into every record of the list. *)
Lemma formatter_returns l w :
  Forall (λ a, keyed (objs w a)) l →
  Forall (λ a, is_Some (objs w a !! "title")) (first_seen (url_in w) l) →
  ∃ w',
    deduplicate_and_format_sources l m inc w
    = (w', inr (report m inc (objs w) l))
    ∧ stdout w'
      = stdout w ++ concat ((λ a, warnings_of inc (objs w a))
                            <$> first_seen (url_in w) l)
    ∧ ∀ b, objs w' b
           = if decide (b ∈ l) then adapted (objs w b) else objs w b.
Proof.
  intros Hl Ht.
  destruct (dedup_loop_ok (url_in w) l [] w) as (w1 & Hrun & Hout & Hobjs);
    [done | done |].
  assert (∀ a, a ∈ first_seen (url_in w) l →
               objs w1 a = adapted (objs w a) ∧ keyed (objs w a)
               ∧ is_Some (objs w a !! "title")) as Hkept.
  { intros a Ha. pose proof (first_seen_elem _ _ _ Ha) as Hin.
    rewrite Hobjs, decide_True by done. split; [done |]. split.
    - by apply (proj1 (Forall_forall _ _) Hl).
    - by apply (proj1 (Forall_forall _ _) Ht). }
  unfold deduplicate_and_format_sources.
  rewrite run_bind, Hrun, values_retained.
  rewrite run_bind, format_loop_ok.
  - eexists. split; [|split].
    + unfold mret, py_ret. f_equal. f_equal. unfold report. f_equal. f_equal.
      f_equal. apply Forall_fmap_ext_1, Forall_forall. intros a Ha.
      destruct (Hkept a Ha) as (-> & Hk & _). by apply rendered_adapted.
    + cbn [stdout]. rewrite Hout. f_equal. f_equal.
      apply Forall_fmap_ext_1, Forall_forall. intros a Ha.
      destruct (Hkept a Ha) as (-> & Hk & _). by apply printed_adapted.
    + done.
  - apply Forall_forall. intros a Ha.
    destruct (Hkept a Ha) as (-> & Hk & Htitle). by apply renderable_adapted.
Qed.

(** A record without [link] or [snippet] makes the function raise the
    [KeyError] of the first lookup that fails. *)
Lemma formatter_raises_key pre a post w :
  Forall (λ b, keyed (objs w b)) pre →
  ¬ keyed (objs w a) →
  (deduplicate_and_format_sources (pre ++ a :: post) m inc w).2
  = inl (KeyError (missing_key (objs w a))).
Proof.
  intros Hpre Ha. unfold deduplicate_and_format_sources. rewrite run_bind.
  pose proof (dedup_loop_err pre a post [] w Hpre Ha) as Herr.
  destruct (dedup_loop (pre ++ a :: post) [] w) as [w1 [e|u1]];
    simpl in *; congruence.
Qed.

(** A kept record without a title makes the function raise
    [KeyError "title"]. *)
Lemma formatter_raises_title l pre a post w :
  Forall (λ b, keyed (objs w b)) l →
  first_seen (url_in w) l = pre ++ a :: post →
  Forall (λ b, is_Some (objs w b !! "title")) pre →
  objs w a !! "title" = None →
  (deduplicate_and_format_sources l m inc w).2 = inl (KeyError "title").
Proof.
  intros Hl Hfs Hpre Ha.
  destruct (dedup_loop_ok (url_in w) l [] w) as (w1 & Hrun & Hout & Hobjs);
    [done | done |].
  assert (∀ b, b ∈ first_seen (url_in w) l →
               objs w1 b = adapted (objs w b) ∧ keyed (objs w b)) as Hkept.
  { intros b Hb. pose proof (first_seen_elem _ _ _ Hb) as Hin.
    rewrite Hobjs, decide_True by done. split; [done |].
    by apply (proj1 (Forall_forall _ _) Hl). }
  unfold deduplicate_and_format_sources.
  rewrite run_bind, Hrun, values_retained, Hfs, run_bind.
  pose proof (format_loop_err m inc pre a post banner w1) as Herr.
  destruct (format_loop m inc (pre ++ a :: post) banner w1) as [w2 [e|txt]];
    simpl in *.
  - apply Herr.
    + apply Forall_forall. intros b Hb.
      destruct (Hkept b) as (-> & Hk).
      { rewrite Hfs. apply elem_of_app. by left. }
      apply renderable_adapted; [done |].
      by apply (proj1 (Forall_forall _ _) Hpre).
    + destruct (Hkept a) as (-> & Hk).
      { rewrite Hfs. apply elem_of_app. right. by left. }
      by rewrite adapted_lookup_ne.
  - exfalso. assert (inr txt = inl (KeyError "title")) as Habs; [|done].
    apply Herr.
    + apply Forall_forall. intros b Hb.
      destruct (Hkept b) as (-> & Hk).
      { rewrite Hfs. apply elem_of_app. by left. }
      apply renderable_adapted; [done |].
      by apply (proj1 (Forall_forall _ _) Hpre).
    + destruct (Hkept a) as (-> & Hk).
      { rewrite Hfs. apply elem_of_app. right. by left. }
      by rewrite adapted_lookup_ne.
Qed.

(** When the function returns, every record had [link] and [snippet] and
    every kept record had a title. *)
Lemma formatter_returned l w w' out :
  deduplicate_and_format_sources l m inc w = (w', inr out) →
  Forall (λ a, keyed (objs w a)) l
  ∧ Forall (λ a, is_Some (objs w a !! "title")) (first_seen (url_in w) l).
Proof.
  intros Hrun.
  destruct (decide (Forall (λ a, keyed (objs w a)) l)) as [Hl|Hl].
  - split; [done |].
    destruct (decide (Forall (λ a, is_Some (objs w a !! "title"))
                             (first_seen (url_in w) l))) as [Ht|Ht]; [done |].
    apply first_failure in Ht as (pre & a & post & Hfs & Hpre & Ha);
      [|apply _].
    pose proof (formatter_raises_title l pre a post w Hl Hfs Hpre) as Herr.
    rewrite Hrun in Herr. simpl in Herr.
    destruct (objs w a !! "title") eqn:Hta; [by destruct Ha; eexists |].
    by specialize (Herr eq_refl).
  - apply first_failure in Hl as (pre & a & post & -> & Hpre & Ha);
      [|apply _].
    pose proof (formatter_raises_key pre a post w Hpre Ha) as Herr.
    rewrite Hrun in Herr. done.
Qed.

End whole.

(** ** Consequences used by several results *)

Section consequences.
Context (m : Z) (inc : bool).
Implicit Types (w : world) (l : list addr) (h : addr → dict).

(** On records with [link] and [snippet] the outcome is decided by the
    titles of the kept records. *)
Lemma formatter_result_keyed l w :
  Forall (λ a, keyed (objs w a)) l →
  (deduplicate_and_format_sources l m inc w).2
  = if decide (Forall (λ a, is_Some (objs w a !! "title"))
                      (first_seen (url_in w) l))
    then inr (report m inc (objs w) l)
    else inl (KeyError "title").
Proof.
  intros Hl. case_decide as Ht.
  - destruct (formatter_returns m inc l w Hl Ht) as (w' & -> & _). done.
  - apply first_failure in Ht as (pre & a & post & Hfs & Hpre & Ha);
      [|apply _].
    apply (formatter_raises_title m inc l pre a post w Hl Hfs Hpre).
    destruct (objs w a !! "title"); [by destruct Ha; eexists | done].
Qed.

(** The report reads the URL and the block of each record, nothing else. *)
Lemma report_ext h1 h2 l :
  (∀ a, a ∈ l → url_of (h1 a) = url_of (h2 a)
                ∧ block_of m inc (h1 a) = block_of m inc (h2 a)) →
  report m inc h1 l = report m inc h2 l.
Proof.
  intros Hh. unfold report.
  rewrite (first_seen_ext (λ a, url_of (h1 a)) (λ a, url_of (h2 a)))
    by (intros a Ha; by apply Hh).
  do 3 f_equal. apply Forall_fmap_ext_1, Forall_forall.
  intros a Ha%first_seen_elem. by apply Hh.
Qed.

Lemma block_of_adapted (d : dict) : block_of m inc (adapted d) = block_of m inc d.
Proof.
  unfold block_of. by rewrite url_of_adapted, !adapted_lookup_ne by done.
Qed.

(** A record that is the first of the list with its key is kept. *)
Lemma first_occurrence_kept (key : addr → pyval) pre a post :
  key a ∉ key <$> pre → a ∈ first_seen key (pre ++ a :: post).
Proof.
  intros Hfresh. rewrite first_seen_app. apply elem_of_app. right.
  simpl. rewrite filter_cons_True by done. by left.
Qed.

(** The report starts with the banner line and ends without white space. *)
Lemma strip_banner (t : string) :
  strip (banner +:+ t) = "Sources:" +:+ rstrip (nl +:+ nl +:+ t).
Proof.
  unfold strip, banner. rewrite !app_assoc_str.
  change (lstrip ("Sources:" +:+ nl +:+ nl +:+ t))
    with ("Sources:" +:+ nl +:+ nl +:+ t).
  change ("Sources:" +:+ nl +:+ nl +:+ t)
    with (String "S" (String "o" (String "u" (String "r" (String "c"
           (String "e" (String "s" (String ":" (nl +:+ nl +:+ t))))))))).
  by rewrite !rstrip_cons_nonspace by done.
Qed.

Lemma strip_banner_fixed (t : string) :
  strip (strip (banner +:+ t)) = strip (banner +:+ t).
Proof.
  rewrite strip_banner. unfold strip.
  change (lstrip ("Sources:" +:+ rstrip (nl +:+ nl +:+ t)))
    with ("Sources:" +:+ rstrip (nl +:+ nl +:+ t)).
  change ("Sources:" +:+ rstrip (nl +:+ nl +:+ t))
    with (String "S" (String "o" (String "u" (String "r" (String "c"
           (String "e" (String "s" (String ":" (rstrip (nl +:+ nl +:+ t)))))))))).
  rewrite !rstrip_cons_nonspace by done. by rewrite rstrip_idemp.
Qed.

Lemma strip_banner_last (t r : string) (c : ascii) :
  strip (banner +:+ t) = r +:+ String c "" → isspace c = false.
Proof.
  unfold strip, banner. rewrite !app_assoc_str.
  change (lstrip ("Sources:" +:+ nl +:+ nl +:+ t))
    with ("Sources:" +:+ nl +:+ nl +:+ t).
  apply rstrip_last.
Qed.

End consequences.

(** * The claims *)

Section truncation.
Context (m : Z).
Implicit Types (w : world) (l pre : list addr) (a b : addr) (s : string)
  (d : dict).

(** A block starts with the word [Source], so stripping it on the right
    leaves something. *)
Lemma block_of_rstrip_nonempty d : rstrip (block_of m true d) ≠ "".
Proof.
  unfold block_of, block, header_text. rewrite !app_assoc_str.
  match goal with
  | |- context ["Source " +:+ ?x] =>
      change ("Source " +:+ x) with (String "S" ("ource " +:+ x))
  end.
  by rewrite rstrip_cons_nonspace.
Qed.

(** The final [strip] reaches the last block only. *)
Lemma strip_last_block (blocks : list string) (last : string) :
  rstrip last ≠ "" →
  strip (banner +:+ cat (blocks ++ [last]))
  = banner +:+ cat blocks +:+ rstrip last.
Proof.
  intros Hlast. rewrite strip_banner, cat_app. cbn [cat].
  rewrite app_nil_r_str.
  assert (nl +:+ nl +:+ cat blocks +:+ last
          = (nl +:+ nl +:+ cat blocks) +:+ last) as ->
    by (by rewrite !app_assoc_str).
  rewrite rstrip_app by done. unfold banner. by rewrite ?app_assoc_str.
Qed.

Lemma block_of_body d s :
  d !! "raw_content" = Some (PyStr s) →
  block_of m true d
  = header_of d +:+ "Full source content limited to " +:+ pretty m
    +:+ " tokens: "
    +:+ (if m * 4 <? len s then slice_to s (m * 4) +:+ "... [truncated]"
         else s)
    +:+ nl +:+ nl.
Proof.
  intros Hraw. unfold block_of, header_of, block, body_text, clipped, marker.
  rewrite Hraw. by rewrite ?app_assoc_str.
Qed.

(** C1, as the code has it.  For a non-negative budget and
    [include_raw_content] true, the report of well-formed records is the
    banner, the blocks of the kept records but the last as they are
    built, and the last block stripped on the right.  The block of a
    record whose raw body is longer than [max_tokens_per_source * 4]
    characters holds that body cut to exactly that many characters and
    then the marker ["... [truncated]"]; the block of a record whose raw
    body has at most that many characters (the bound included) holds the
    body unchanged and no marker.  In the last block a cut body keeps its
    marker, and a short body is returned without the white space it ends
    in.  For a budget of 10 tokens the bound is 40 characters. *)
Theorem truncation_in_report l pre a w :
  0 ≤ m →
  Forall (λ b, well_formed (objs w b)) l →
  first_seen (url_in w) l = pre ++ [a] →
  (∃ w',
     deduplicate_and_format_sources l m true w
     = (w', inr (banner
                 +:+ cat ((λ b, block_of m true (objs w b)) <$> pre)
                 +:+ rstrip (block_of m true (objs w a)))))
  ∧ (∀ b s,
       objs w b !! "raw_content" = Some (PyStr s) → m * 4 < len s →
       block_of m true (objs w b)
       = header_of (objs w b) +:+ "Full source content limited to "
         +:+ pretty m +:+ " tokens: "
         +:+ slice_to s (m * 4) +:+ "... [truncated]" +:+ nl +:+ nl
       ∧ len (slice_to s (m * 4)) = m * 4
       ∧ ∃ tail, s = slice_to s (m * 4) +:+ tail)
  ∧ (∀ b s,
       objs w b !! "raw_content" = Some (PyStr s) → len s ≤ m * 4 →
       block_of m true (objs w b)
       = header_of (objs w b) +:+ "Full source content limited to "
         +:+ pretty m +:+ " tokens: " +:+ s +:+ nl +:+ nl)
  ∧ (∀ s,
       objs w a !! "raw_content" = Some (PyStr s) → m * 4 < len s →
       rstrip (block_of m true (objs w a))
       = header_of (objs w a) +:+ "Full source content limited to "
         +:+ pretty m +:+ " tokens: "
         +:+ slice_to s (m * 4) +:+ "... [truncated]")
  ∧ (∀ s,
       objs w a !! "raw_content" = Some (PyStr s) → len s ≤ m * 4 →
       rstrip s ≠ "" →
       rstrip (block_of m true (objs w a))
       = header_of (objs w a) +:+ "Full source content limited to "
         +:+ pretty m +:+ " tokens: " +:+ rstrip s)
  ∧ (m = 10 → m * 4 = 40).
Proof.
  intros Hm Hl Hfs.
  split; [|split; [|split; [|split; [|split]]]].
  - destruct (formatter_returns m true l w) as (w' & Hrun & _).
    { eapply Forall_impl; [exact Hl |]. by intros b [? _]. }
    { apply Forall_forall. intros b Hb%first_seen_elem.
      by destruct (proj1 (Forall_forall _ _) Hl b Hb). }
    exists w'. rewrite Hrun. unfold report. rewrite Hfs, fmap_app.
    cbn [fmap list_fmap]. f_equal. f_equal.
    apply strip_last_block, block_of_rstrip_nonempty.
  - intros b s Hraw Hlong. split; [|split].
    + rewrite (block_of_body _ s) by done.
      rewrite (proj2 (Z.ltb_lt _ _)) by done. by rewrite ?app_assoc_str.
    + apply slice_to_len; lia.
    + apply slice_to_prefix.
  - intros b s Hraw Hshort. rewrite (block_of_body _ s) by done.
    by rewrite (proj2 (Z.ltb_ge _ _)) by done.
  - intros s Hraw Hlong. rewrite (block_of_body _ s) by done.
    rewrite (proj2 (Z.ltb_lt _ _)) by done.
    set (front := header_of (objs w a) +:+ "Full source content limited to "
                  +:+ pretty m +:+ " tokens: " +:+ slice_to s (m * 4)).
    assert (rstrip ("... [truncated]" +:+ nl +:+ nl) = "... [truncated]")
      as Htail by done.
    assert (header_of (objs w a) +:+ "Full source content limited to "
            +:+ pretty m +:+ " tokens: "
            +:+ (slice_to s (m * 4) +:+ "... [truncated]") +:+ nl +:+ nl
            = front +:+ ("... [truncated]" +:+ nl +:+ nl)) as ->
      by (subst front; by rewrite ?app_assoc_str).
    rewrite rstrip_app by (by rewrite Htail). rewrite Htail.
    subst front. by rewrite ?app_assoc_str.
  - intros s Hraw Hshort Hs. rewrite (block_of_body _ s) by done.
    rewrite (proj2 (Z.ltb_ge _ _)) by done.
    set (front := header_of (objs w a) +:+ "Full source content limited to "
                  +:+ pretty m +:+ " tokens: ").
    assert (header_of (objs w a) +:+ "Full source content limited to "
            +:+ pretty m +:+ " tokens: " +:+ s +:+ nl +:+ nl
            = (front +:+ s) +:+ (nl +:+ nl)) as ->
      by (subst front; by rewrite ?app_assoc_str).
    rewrite rstrip_app_space by done. rewrite rstrip_app by done.
    subst front. by rewrite ?app_assoc_str.
  - lia.
Qed.

End truncation.

(** Budget 10.  The 43-character body of the first record is cut to 40
    characters and marked; the second and last record has the short body
    ["body   "], which the report ends with as ["body"]. *)
Lemma truncation_in_report_witness :
  let w := World (store_of [Examples.rec_long; Examples.rec_trailing]) [] in
  (∃ w',
     deduplicate_and_format_sources [0; 1]%nat 10 true w
     = (w', inr ("Sources:" +:+ nl +:+ nl
                 +:+ header_text (PyStr "A") (PyStr "u1") (PyStr "s1")
                 +:+ "Full source content limited to 10 tokens: "
                 +:+ "0123456789012345678901234567890123456789"
                 +:+ "... [truncated]" +:+ nl +:+ nl
                 +:+ header_text (PyStr "T") (PyStr "u9") (PyStr "s9")
                 +:+ "Full source content limited to 10 tokens: body")))
  ∧ len (slice_to "0123456789012345678901234567890123456789XYZ" (10 * 4))
    = 10 * 4
  ∧ rstrip (block_of 10 true (objs w 1%nat))
    = header_of (objs w 1%nat)
      +:+ "Full source content limited to 10 tokens: " +:+ rstrip "body   ".
Proof.
  intros w.
  assert (0 ≤ 10) as Hm by lia.
  assert (Forall (λ b, well_formed (objs w b)) [0; 1]%nat) as Hl.
  { repeat apply Forall_cons_2; try apply Forall_nil_2;
      (split; [split |]); vm_compute; eauto. }
  pose proof (truncation_in_report 10 [0; 1]%nat [0%nat] 1%nat w Hm Hl eq_refl)
    as (Hrun & Hlong & _ & _ & Hlast & _).
  split; [exact Hrun |]. split.
  - refine (proj1 (proj2 (Hlong 0%nat
      "0123456789012345678901234567890123456789XYZ" eq_refl _))).
    unfold len. simpl. lia.
  - refine (Hlast "body   " eq_refl _ _).
    + unfold len. simpl. lia.
    + discriminate.
Defined.

(** C1, as stated, fails: the only record has the 7-character body
    ["body   "], well under the bound of 40, and the report ends in
    ["body"]; the body as it was occurs nowhere in the report. *)
Lemma body_unchanged_counterexample :
  let w := World (store_of [Examples.rec_trailing]) [] in
  let out := "Sources:" +:+ nl +:+ nl
             +:+ header_text (PyStr "T") (PyStr "u9") (PyStr "s9")
             +:+ "Full source content limited to 10 tokens: body" in
  objs w 0%nat !! "raw_content" = Some (PyStr "body   ")
  ∧ len "body   " ≤ 10 * 4
  ∧ (deduplicate_and_format_sources [0%nat] 10 true w).2 = inr out
  ∧ ∀ front back, out ≠ front +:+ "body   " +:+ back.
Proof.
  intros w out. split; [reflexivity |]. split; [by vm_compute |].
  split; [vm_compute; reflexivity |].
  intros front back Heq.
  assert (double_space out = false) as Hout by (vm_compute; reflexivity).
  rewrite Heq, double_space_app in Hout; [discriminate | reflexivity].
Qed.

Section deduplication.
Context (m : Z) (inc : bool).
Implicit Types (w : world) (l pre mid post : list addr) (a b : addr).


End deduplication.


Section raw_content_absent.
Context (m : Z).
Implicit Types (w : world) (a : addr) (txt : string).

(** C3, as the code has it.  With [include_raw_content] true and a
    non-negative budget: a record whose [raw_content] is [None] gets an
    empty body, the line ["Warning: No raw_content found for source"]
    with its URL is printed, and the loop goes on with the remaining
    records; a record whose [raw_content] key is missing or holds the
    empty string gets an empty body as well and the loop goes on, and
    nothing is printed for it. *)
Theorem missing_raw_content a rest txt w title url content :
  0 ≤ m →
  objs w a !! "title" = Some title →
  objs w a !! "url" = Some url →
  objs w a !! "content" = Some content →
  (objs w a !! "raw_content" = Some PyNone →
     format_loop m true (a :: rest) txt w
     = format_loop m true rest
         (txt +:+ header_text title url content
          +:+ "Full source content limited to " +:+ pretty m +:+ " tokens: "
          +:+ "" +:+ nl +:+ nl)
         (World (objs w)
                (stdout w ++ ["Warning: No raw_content found for source "
                              +:+ py_format url])))
  ∧ (objs w a !! "raw_content" = None
     ∨ objs w a !! "raw_content" = Some (PyStr "") →
     format_loop m true (a :: rest) txt w
     = format_loop m true rest
         (txt +:+ header_text title url content
          +:+ "Full source content limited to " +:+ pretty m +:+ " tokens: "
          +:+ "" +:+ nl +:+ nl) w).
Proof.
  intros Hm Ht Hu Hc.
  assert ((m * 4 <? len "") = false) as Hlim
    by (apply Z.ltb_ge; unfold len; simpl; lia).
  split.
  - intros Hraw.
    rewrite format_loop_cons, (format_step_ok _ _ _ _ _ title url content)
      by done.
    rewrite Hraw. unfold warnings, block, clipped, body_text, warning_line.
    rewrite Hlim. by rewrite ?app_assoc_str.
  - intros Hraw.
    rewrite format_loop_cons, (format_step_ok _ _ _ _ _ title url content)
      by done.
    unfold block.
    assert (warnings true url (objs w a !! "raw_content") = []
            ∧ clipped m (objs w a !! "raw_content") = "") as [-> ->].
    { destruct Hraw as [-> | ->]; unfold warnings, clipped; by rewrite Hlim. }
    unfold body_text.
    by rewrite app_nil_r, world_eta, ?app_assoc_str.
Qed.

End raw_content_absent.

(** A record with [raw_content] set to [None] prints the warning with its
    URL and the loop goes on; a record without the key prints nothing. *)
Lemma missing_raw_content_witness :
  let w := World (store_of [adapted Examples.rec_none;
                            adapted Examples.rec_absent]) [] in
  format_loop 10 true [0; 1]%nat "" w
  = format_loop 10 true [1%nat]
      (header_text (PyStr "C") (PyStr "u3") (PyStr "s3")
       +:+ "Full source content limited to 10 tokens: " +:+ nl +:+ nl)
      (World (objs w) ["Warning: No raw_content found for source u3"])
  ∧ format_loop 10 true [1%nat] "" w
    = format_loop 10 true []
        (header_text (PyStr "D") (PyStr "u4") (PyStr "s4")
         +:+ "Full source content limited to 10 tokens: " +:+ nl +:+ nl) w.
Proof.
  intros w. split.
  - refine (proj1 (missing_raw_content 10 0%nat [1%nat] "" w
      (PyStr "C") (PyStr "u3") (PyStr "s3") _ eq_refl eq_refl eq_refl)
      eq_refl). lia.
  - refine (proj2 (missing_raw_content 10 1%nat [] "" w
      (PyStr "D") (PyStr "u4") (PyStr "s4") _ eq_refl eq_refl eq_refl)
      (or_introl eq_refl)). lia.
Defined.

(** C3, as stated, fails: a record without the [raw_content] key and a
    record whose [raw_content] is the empty string are rendered with an
    empty body, and no warning is printed for either. *)
Lemma missing_raw_content_counterexample :
  let w := World (store_of [Examples.rec_absent; Examples.rec_empty]) [] in
  let r := deduplicate_and_format_sources [0; 1]%nat 10 true w in
  objs w 0%nat !! "raw_content" = None
  ∧ objs w 1%nat !! "raw_content" = Some (PyStr "")
  ∧ stdout r.1 = []
  ∧ r.2 = inr ("Sources:" +:+ nl +:+ nl
               +:+ header_text (PyStr "D") (PyStr "u4") (PyStr "s4")
               +:+ "Full source content limited to 10 tokens: " +:+ nl +:+ nl
               +:+ header_text (PyStr "E") (PyStr "u5") (PyStr "s5")
               +:+ "Full source content limited to 10 tokens:").
Proof. vm_compute. done. Qed.

Section records_after_the_call.
Context (m : Z) (inc : bool).
Implicit Types (w : world) (l : list addr) (b : addr).

(** C4, as the code has it.  When the call returns, every record of the
    input list, kept or dropped, has [url] set to the value of its [link]
    and [content] set to the value of its [snippet]; its other fields, and
    every record outside the list, are as before. *)
Theorem records_adapted l w w' out :
  deduplicate_and_format_sources l m inc w = (w', inr out) →
  (∀ b, b ∉ l → objs w' b = objs w b)
  ∧ (∀ b, b ∈ l →
       ∃ link snippet,
         objs w b !! "link" = Some link
         ∧ objs w b !! "snippet" = Some snippet
         ∧ objs w' b = <["content" := snippet]> (<["url" := link]> (objs w b))).
Proof.
  intros Hrun.
  destruct (formatter_returned m inc l w w' out Hrun) as [Hl Ht].
  destruct (formatter_returns m inc l w Hl Ht) as (w'' & Hrun' & _ & Hobjs).
  rewrite Hrun in Hrun'. injection Hrun' as <- _.
  split.
  - intros b Hb. by rewrite Hobjs, decide_False.
  - intros b Hb. rewrite Hobjs, decide_True by done.
    destruct (proj1 (Forall_forall _ _) Hl b Hb) as [[link Hlk] [snippet Hsn]].
    exists link, snippet. split; [done |]. split; [done |].
    by apply adapted_keyed.
Qed.

End records_after_the_call.

(** After a call on the records [rec_long] and [rec_dup_untitled], both
    carry the keys [url] and [content]. *)
Lemma records_adapted_witness :
  let w := World (store_of [Examples.rec_long; Examples.rec_dup_untitled]) [] in
  let r := deduplicate_and_format_sources [0; 1]%nat 10 true w in
  ∃ link snippet,
    objs w 1%nat !! "link" = Some link
    ∧ objs w 1%nat !! "snippet" = Some snippet
    ∧ objs r.1 1%nat
      = <["content" := snippet]> (<["url" := link]> (objs w 1%nat)).
Proof.
  intros w r.
  refine (proj2 (records_adapted 10 true [0; 1]%nat w r.1
    (strip (banner +:+ block_of 10 true Examples.rec_long)) _) 1%nat _).
  - transitivity (r.1, r.2); [apply surjective_pairing |].
    apply (f_equal (pair r.1)). vm_compute. reflexivity.
  - right. left.
Defined.

(** C4, as stated, fails: the call adds the keys [url] and [content] to a
    record that had neither. *)
Lemma records_read_only_counterexample :
  let w := World (store_of [Examples.rec_long]) [] in
  let r := deduplicate_and_format_sources [0%nat] 10 true w in
  objs w 0%nat !! "url" = None
  ∧ objs w 0%nat !! "content" = None
  ∧ objs r.1 0%nat !! "url" = Some (PyStr "u1")
  ∧ objs r.1 0%nat !! "content" = Some (PyStr "s1")
  ∧ objs r.1 0%nat ≠ objs w 0%nat.
Proof.
  intros w r. repeat split; try (vm_compute; reflexivity).
  intros Heq. assert (objs r.1 0%nat !! "url" = objs w 0%nat !! "url") as Habs
    by (by rewrite Heq).
  vm_compute in Habs. discriminate.
Qed.

Section order.
Context (m : Z) (inc : bool).
Implicit Types (w : world) (l : list addr).

(** C5.  On well-formed records the function returns the banner followed
    by the blocks of the kept records, where the kept records are a
    subsequence of the input (so the blocks follow input order), no URL
    is kept twice, every URL of the input is kept, and each kept record is
    the first record of the input with its URL. *)
Theorem first_seen_order l w :
  Forall (λ a, well_formed (objs w a)) l →
  ∃ w' kept,
    deduplicate_and_format_sources l m inc w
    = (w', inr (strip (banner +:+
                       cat ((λ a, block_of m inc (objs w a)) <$> kept))))
    ∧ kept = first_seen (λ a, url_of (objs w a)) l
    ∧ kept `sublist_of` l
    ∧ NoDup ((λ a, url_of (objs w a)) <$> kept)
    ∧ (∀ a, a ∈ l →
         url_of (objs w a) ∈ (λ a, url_of (objs w a)) <$> kept)
    ∧ (∀ a, a ∈ kept →
         ∃ pre post, l = pre ++ a :: post
                     ∧ url_of (objs w a)
                       ∉ (λ a, url_of (objs w a)) <$> pre).
Proof.
  intros Hl.
  destruct (formatter_returns m inc l w) as (w' & Hrun & _).
  { eapply Forall_impl; [exact Hl |]. by intros a [? _]. }
  { apply Forall_forall. intros a Ha%first_seen_elem.
    by destruct (proj1 (Forall_forall _ _) Hl a Ha). }
  exists w', (first_seen (λ a, url_of (objs w a)) l).
  split; [exact Hrun |]. split; [done |].
  split; [apply first_seen_sublist |].
  split; [apply first_seen_NoDup |].
  split.
  - intros a Ha. by apply (first_seen_covers (λ a, url_of (objs w a))).
  - intros a Ha.
    by apply (first_seen_first (λ a, url_of (objs w a))) in Ha.
Qed.

End order.

(** The URLs u1, u2, u1, u3, u2 are kept as u1, u2, u3. *)
Lemma first_seen_order_witness :
  let w := World (store_of [Examples.rec_long; Examples.rec_exact;
                            Examples.rec_long; Examples.rec_none;
                            Examples.rec_exact]) [] in
  ∃ w' kept,
    deduplicate_and_format_sources [0; 1; 2; 3; 4]%nat 10 false w
    = (w', inr (strip (banner +:+
                       cat ((λ a, block_of 10 false (objs w a)) <$> kept))))
    ∧ kept = [0; 1; 3]%nat.
Proof.
  intros w.
  destruct (first_seen_order 10 false [0; 1; 2; 3; 4]%nat w)
    as (w' & kept & Hrun & Hkept & _).
  - repeat apply Forall_cons_2; try apply Forall_nil_2;
      (split; [split |]); vm_compute; eauto.
  - exists w', kept. split; [exact Hrun | exact Hkept].
Defined.

Section determinism.
Context (m : Z) (inc : bool).
Implicit Types (w : world) (l : list addr).

(** A store that holds, at the addresses of [l], the caller's well-formed
    records either as passed or as a previous call left them, gives the
    report of the caller's records. *)
Lemma formatter_same_report l w w2 :
  Forall (λ a, well_formed (objs w a)) l →
  (∀ a, a ∈ l → objs w2 a = objs w a ∨ objs w2 a = adapted (objs w a)) →
  (deduplicate_and_format_sources l m inc w2).2
  = inr (report m inc (objs w) l).
Proof.
  intros Hl Hsame.
  assert (∀ a, a ∈ l →
            keyed (objs w2 a) ∧ is_Some (objs w2 a !! "title")
            ∧ url_of (objs w2 a) = url_of (objs w a)
            ∧ block_of m inc (objs w2 a) = block_of m inc (objs w a)) as Hw2.
  { intros a Ha.
    destruct (proj1 (Forall_forall _ _) Hl a Ha) as [Hk Ht].
    destruct (Hsame a Ha) as [-> | ->]; [done |].
    split; [by apply keyed_adapted |].
    split; [by rewrite adapted_lookup_ne |].
    split; [apply url_of_adapted | apply block_of_adapted]. }
  rewrite formatter_result_keyed.
  - rewrite decide_True.
    + f_equal. apply report_ext. intros a Ha.
      by destruct (Hw2 a Ha) as (_ & _ & ? & ?).
    + apply Forall_forall. intros a Ha%first_seen_elem.
      by destruct (Hw2 a Ha) as (_ & ? & _).
  - apply Forall_forall. intros a Ha. by destruct (Hw2 a Ha) as (? & _).
Qed.

(** C6.  On well-formed records the function returns one string; the
    string starts with ["Sources:"], it is its own [strip] and its last
    character is not white space; a second call on the same objects
    returns the same string, and so does a call in any world whose records
    at the addresses of the list are equal to these. *)
Theorem banner_trimmed_deterministic l w :
  Forall (λ a, well_formed (objs w a)) l →
  ∃ w' out,
    deduplicate_and_format_sources l m inc w = (w', inr out)
    ∧ (∃ rest, out = "Sources:" +:+ rest)
    ∧ strip out = out
    ∧ (∀ r c, out = r +:+ String c "" → isspace c = false)
    ∧ (deduplicate_and_format_sources l m inc w').2 = inr out
    ∧ (∀ w2, (∀ a, a ∈ l → objs w2 a = objs w a) →
         (deduplicate_and_format_sources l m inc w2).2 = inr out).
Proof.
  intros Hl.
  destruct (formatter_returns m inc l w) as (w' & Hrun & _ & Hobjs).
  { eapply Forall_impl; [exact Hl |]. by intros a [? _]. }
  { apply Forall_forall. intros a Ha%first_seen_elem.
    by destruct (proj1 (Forall_forall _ _) Hl a Ha). }
  exists w', (report m inc (objs w) l). split; [exact Hrun |].
  unfold report at 1 2 3. split; [|split; [|split; [|split]]].
  - eexists. apply strip_banner.
  - apply strip_banner_fixed.
  - intros r c. apply strip_banner_last.
  - apply formatter_same_report; [done |]. intros a Ha. right.
    by rewrite Hobjs, decide_True.
  - intros w2 Hw2. apply formatter_same_report; [done |].
    intros a Ha. left. by apply Hw2.
Qed.

End determinism.

(** Three records, two of them with the same URL: the call returns a
    report that starts with the banner, and a second call on the objects
    it leaves behind returns the same report. *)
Lemma banner_trimmed_deterministic_witness :
  let w := World (store_of [Examples.rec_long; Examples.rec_none;
                            Examples.rec_long]) [] in
  ∃ w' out,
    deduplicate_and_format_sources [0; 1; 2]%nat 10 true w = (w', inr out)
    ∧ (∃ rest, out = "Sources:" +:+ rest)
    ∧ (deduplicate_and_format_sources [0; 1; 2]%nat 10 true w').2 = inr out.
Proof.
  intros w.
  destruct (banner_trimmed_deterministic 10 true [0; 1; 2]%nat w)
    as (w' & out & Hrun & Hbanner & _ & _ & Hagain & _).
  - repeat apply Forall_cons_2; try apply Forall_nil_2;
      (split; [split |]); vm_compute; eauto.
  - exists w', out. split; [exact Hrun |]. split; [exact Hbanner | exact Hagain].
Defined.

Section malformed.
Context (m : Z) (inc : bool).
Implicit Types (w : world) (l pre post : list addr) (a : addr).

(** C9, as the code has it.  The first record of the input without [link]
    or without [snippet] makes the call raise the [KeyError] of the lookup
    that fails, [link] before [snippet]; when every record has both, a
    record without a title that is the first of the input with its URL
    makes the call raise [KeyError "title"].  No lookup is caught and no
    default is put in place of the missing field. *)
Theorem malformed_record_raises pre a post w :
  (Forall (λ b, keyed (objs w b)) pre →
   objs w a !! "link" = None →
   (deduplicate_and_format_sources (pre ++ a :: post) m inc w).2
   = inl (KeyError "link"))
  ∧ (Forall (λ b, keyed (objs w b)) pre →
     is_Some (objs w a !! "link") →
     objs w a !! "snippet" = None →
     (deduplicate_and_format_sources (pre ++ a :: post) m inc w).2
     = inl (KeyError "snippet"))
  ∧ (Forall (λ b, keyed (objs w b)) (pre ++ a :: post) →
     url_of (objs w a) ∉ (λ b, url_of (objs w b)) <$> pre →
     objs w a !! "title" = None →
     (deduplicate_and_format_sources (pre ++ a :: post) m inc w).2
     = inl (KeyError "title")).
Proof.
  split; [|split].
  - intros Hpre Hlk.
    rewrite formatter_raises_key; [|done |].
    + unfold missing_key. by rewrite Hlk.
    + intros [[? Habs] _]. congruence.
  - intros Hpre [link Hlk] Hsn.
    rewrite formatter_raises_key; [|done |].
    + unfold missing_key. by rewrite Hlk.
    + intros [_ [? Habs]]. congruence.
  - intros Hl Hfresh Ht.
    rewrite formatter_result_keyed by done.
    rewrite decide_False; [done |].
    intros Hall.
    pose proof (first_occurrence_kept (λ b, url_of (objs w b)) pre a post
                  Hfresh) as Hkept.
    destruct (proj1 (Forall_forall _ _) Hall a Hkept) as [? Habs].
    congruence.
Qed.

End malformed.

(** A record without [link] after a well-formed one raises
    [KeyError "link"]; a first record without a title raises
    [KeyError "title"]. *)
Lemma malformed_record_raises_witness :
  let w := World (store_of [Examples.rec_long; Examples.rec_no_link;
                            Examples.rec_dup_untitled]) [] in
  (deduplicate_and_format_sources [0; 1]%nat 10 true w).2
  = inl (KeyError "link")
  ∧ (deduplicate_and_format_sources [2; 0]%nat 10 true w).2
    = inl (KeyError "title").
Proof.
  intros w. split.
  - refine (proj1 (malformed_record_raises 10 true [0%nat] 1%nat [] w)
              _ eq_refl).
    repeat apply Forall_cons_2; try apply Forall_nil_2;
      split; vm_compute; eauto.
  - refine (proj2 (proj2 (malformed_record_raises 10 true [] 2%nat [0%nat] w))
              _ _ eq_refl).
    + repeat apply Forall_cons_2; try apply Forall_nil_2;
        split; vm_compute; eauto.
    + apply not_elem_of_nil.
Defined.

(** C9, as stated, fails: the second record has no title, it shares the
    URL of the first one, and the call returns a report. *)
Lemma untitled_duplicate_counterexample :
  let w := World (store_of [Examples.rec_long; Examples.rec_dup_untitled]) [] in
  objs w 1%nat !! "title" = None
  ∧ (deduplicate_and_format_sources [0; 1]%nat 10 false w).2
    = inr ("Sources:" +:+ nl +:+ nl +:+ "Source A:" +:+ nl +:+ "===" +:+ nl
           +:+ "URL: u1" +:+ nl +:+ "===" +:+ nl
           +:+ "Most relevant content from source: s1" +:+ nl +:+ "===").
Proof. vm_compute. done. Qed.

(** C10.  On the empty list the function returns ["Sources:"], whatever
    the budget and the flag, and leaves the world as it was. *)
Theorem empty_input (m : Z) (inc : bool) (w : world) :
  deduplicate_and_format_sources [] m inc w = (w, inr "Sources:").
Proof. reflexivity. Qed.

Section bullets.
Implicit Types (w : world) (l : list addr) (a : addr).

Lemma bullet_line_ok a w title url :
  objs w a !! "title" = Some title →
  objs w a !! "url" = Some url →
  bullet_line a w
  = (w, inr ("* " +:+ py_format title +:+ " : " +:+ py_format url)).
Proof.
  intros Ht Hu. unfold bullet_line.
  rewrite (run_getitem_Some _ _ title) by done.
  by rewrite (run_getitem_Some _ _ url) by done.
Qed.

Lemma bullet_lines_ok l (tus : list (string * string)) w :
  Forall2 (λ a tu, objs w a !! "title" = Some (PyStr tu.1)
                   ∧ objs w a !! "url" = Some (PyStr tu.2)) l tus →
  bullet_lines l w
  = (w, inr ((λ tu, "* " +:+ tu.1 +:+ " : " +:+ tu.2) <$> tus)).
Proof.
  induction 1 as [|a tu l tus [Ht Hu] _ IH]; [done |].
  change (bullet_lines (a :: l) w)
    with ((bullet_line a ≫= λ line,
           bullet_lines l ≫= λ lines, mret (line :: lines)) w).
  rewrite run_bind, (bullet_line_ok _ _ _ _ Ht Hu).
  by rewrite run_bind, IH.
Qed.

(** C7.  For records that each have a title and a url, [format_sources]
    returns the lines ["* {title} : {url}"], one per record in input
    order, joined by newlines; records are neither merged nor cut, and
    the records are left as they were.  For the records A/u1 and B/u2 the
    result is ["* A : u1"], a newline, ["* B : u2"]. *)
Theorem bullet_formatting l (tus : list (string * string)) w :
  Forall2 (λ a tu, objs w a !! "title" = Some (PyStr tu.1)
                   ∧ objs w a !! "url" = Some (PyStr tu.2)) l tus →
  format_sources l w
  = (w, inr (join nl ((λ tu, "* " +:+ tu.1 +:+ " : " +:+ tu.2) <$> tus)))
  ∧ length ((λ tu, "* " +:+ tu.1 +:+ " : " +:+ tu.2) <$> tus) = length l
  ∧ (format_sources [0; 1]%nat
       (World (store_of [Examples.bullet_A; Examples.bullet_B]) [])).2
    = inr ("* A : u1" +:+ nl +:+ "* B : u2").
Proof.
  intros Hl. split; [|split].
  - unfold format_sources. by rewrite run_bind, (bullet_lines_ok _ tus).
  - rewrite length_fmap. symmetry. by eapply Forall2_length.
  - reflexivity.
Qed.

End bullets.

(** The two records of the example, and a repeated record: three lines. *)
Lemma bullet_formatting_witness :
  let w := World (store_of [Examples.bullet_A; Examples.bullet_B]) [] in
  format_sources [0; 1; 0]%nat w
  = (w, inr ("* A : u1" +:+ nl +:+ "* B : u2" +:+ nl +:+ "* A : u1")).
Proof.
  intros w.
  refine (proj1 (bullet_formatting [0; 1; 0]%nat
                   [("A", "u1"); ("B", "u2"); ("A", "u1")] w _)).
  repeat constructor.
Defined.

Section gateway_properties.
Context {net client_exn result : Type}.
Context (client : SearxSearchWrapper net client_exn result).

(** C8, as the code has it.  Whatever the client does, [searxng_search]
    calls its [results] method exactly once, for the fixed host and the
    requested number of results, and hands the outcome of that one call to
    its caller as it is: the client's own exception when the call raises
    (nothing is caught, wrapped or tried again, and no other backend is
    asked), the client's list in the client's order when it returns. *)
Theorem search_calls_backend_once (query : string)
    (include_raw_content : bool) (max_results : Z) (n : net) (calls : nat) :
  let searx_search :=
    SearxConfig "http://127.0.0.1:8080" true max_results ["google"] in
  let answer :=
    @results _ _ _ client searx_search query max_results
             include_raw_content n in
  @searxng_search _ _ _ (counted client) query include_raw_content
                  max_results (n, calls)
  = ((answer.1, S calls), answer.2).
Proof.
  intros cfg answer. unfold searxng_search, counted. cbn. fold cfg.
  change (results cfg query max_results include_raw_content n) with answer.
  by destruct answer.
Qed.

End gateway_properties.

(** C8, as stated, fails: when the connection is refused the caller
    receives the [ConnectionError] of the HTTP library; it is not turned
    into a [SearchBackendError]. *)
Lemma backend_error_class_counterexample :
  let r := @searxng_search unit py_exception dict Examples.refused_client
             "rocq" true 3 tt in
  ∃ e, r.2 = inl e
       ∧ exn_class e = "ConnectionError"
       ∧ exn_class e ≠ "SearchBackendError".
Proof.
  intros r. exists (PyException "ConnectionError" "connection refused").
  split; [reflexivity |]. split; [reflexivity | discriminate].
Qed.

(** A client that would answer a second call: the caller still gets the
    failure of the first one, after one call. *)
Lemma flaky_backend_not_retried :
  @searxng_search (nat * nat) py_exception dict
     (counted Examples.flaky_client) "rocq" true 3 (0%nat, 0%nat)
  = ((1%nat, 1%nat),
     inl (PyException "ConnectionError" "connection refused"))
  ∧ @searxng_search (nat * nat) py_exception dict
       (counted Examples.flaky_client) "rocq" true 3 (1%nat, 1%nat)
    = ((2%nat, 2%nat), inr [Examples.rec_exact; Examples.rec_long]).
Proof. split; reflexivity. Qed.

(** * Further properties of the three functions *)

Section flag_off.
Implicit Types (w : world) (l : list addr).

Lemma no_warnings_without_flag (h : addr → dict) (xs : list addr) :
  concat ((λ a, warnings_of false (h a)) <$> xs) = [].
Proof. induction xs as [|x xs IH]; [done |]. by rewrite fmap_cons. Qed.

(** With [include_raw_content] false the report is the banner and the
    three header lines of every kept record; nothing is printed, and the
    budget plays no part. *)
Theorem headers_only l (m : Z) w :
  Forall (λ a, well_formed (objs w a)) l →
  ∃ w',
    deduplicate_and_format_sources l m false w
    = (w', inr (strip (banner +:+
         cat ((λ a, header_text (default PyNone (objs w a !! "title"))
                                (url_of (objs w a))
                                (default PyNone (objs w a !! "snippet")))
              <$> first_seen (url_in w) l))))
    ∧ stdout w' = stdout w
    ∧ ∀ m2, (deduplicate_and_format_sources l m2 false w).2
            = (deduplicate_and_format_sources l m false w).2.
Proof.
  intros Hl.
  assert (∀ m0, ∃ w',
    deduplicate_and_format_sources l m0 false w
    = (w', inr (strip (banner +:+
         cat ((λ a, header_text (default PyNone (objs w a !! "title"))
                                (url_of (objs w a))
                                (default PyNone (objs w a !! "snippet")))
              <$> first_seen (url_in w) l))))
    ∧ stdout w' = stdout w) as Hany.
  { intros m0. destruct (formatter_returns m0 false l w) as (w' & Hrun & Hout & _).
    - eapply Forall_impl; [exact Hl |]. by intros a [? _].
    - apply Forall_forall. intros a Ha%first_seen_elem.
      by destruct (proj1 (Forall_forall _ _) Hl a Ha).
    - exists w'. split.
      + rewrite Hrun. unfold report. do 5 f_equal.
        apply Forall_fmap_ext_1, Forall_forall. intros a _.
        unfold block_of, block. by rewrite app_nil_r_str.
      + by rewrite Hout, no_warnings_without_flag, app_nil_r. }
  destruct (Hany m) as (w' & Hrun & Hout). exists w'.
  split; [done |]. split; [done |].
  intros m2. destruct (Hany m2) as (w2 & Hrun2 & _).
  by rewrite Hrun, Hrun2.
Qed.

End flag_off.

(** Two records, one of them with [raw_content] set to [None]: with the
    flag off nothing is printed, and budgets 10 and 99 give one report. *)
Lemma headers_only_witness :
  let w := World (store_of [Examples.rec_long; Examples.rec_none]) [] in
  ∃ w',
    deduplicate_and_format_sources [0; 1]%nat 10 false w
    = (w', inr ("Sources:" +:+ nl +:+ nl
                +:+ header_text (PyStr "A") (PyStr "u1") (PyStr "s1")
                +:+ "Source C:" +:+ nl +:+ "===" +:+ nl
                +:+ "URL: u3" +:+ nl +:+ "===" +:+ nl
                +:+ "Most relevant content from source: s3" +:+ nl +:+ "==="))
    ∧ stdout w' = []
    ∧ (deduplicate_and_format_sources [0; 1]%nat 99 false w).2
      = (deduplicate_and_format_sources [0; 1]%nat 10 false w).2.
Proof.
  intros w.
  destruct (headers_only [0; 1]%nat 10 w) as (w' & Hrun & Hout & Hm).
  - repeat apply Forall_cons_2; try apply Forall_nil_2;
      (split; [split |]); vm_compute; eauto.
  - exists w'. split; [exact Hrun |]. split; [exact Hout | exact (Hm 99)].
Defined.

Section body_bounds.
Context (m : Z).
Implicit Types (w : world) (a : addr) (s : string).

(** For a non-negative budget the raw-content line carries a body of at
    most [max_tokens_per_source * 4] characters plus the 15 characters of
    the marker, whatever the record holds under [raw_content]. *)
Theorem body_length_bound a w url :
  0 ≤ m →
  objs w a !! "url" = Some url →
  ∃ w' body,
    raw_content_part m a w
    = (w', inr ("Full source content limited to " +:+ pretty m
                +:+ " tokens: " +:+ body +:+ nl +:+ nl))
    ∧ objs w' = objs w
    ∧ len body ≤ m * 4 + 15.
Proof.
  intros Hm Hu. rewrite (raw_content_part_ok _ _ _ url) by done.
  eexists _, (clipped m (objs w a !! "raw_content")).
  split; [done |]. split; [done |].
  unfold clipped.
  set (s := match objs w a !! "raw_content" with
            | Some (PyStr s) => s
            | _ => ""
            end).
  destruct (Z.ltb_spec (m * 4) (len s)) as [Hlong|Hshort]; [|lia].
  rewrite len_app, slice_to_len by lia. unfold marker, len. simpl. lia.
Qed.

(** For a negative budget the length check succeeds for every body, the
    empty one included: the body loses its last [-4 * m] characters and
    the marker is appended. *)
Theorem negative_budget_marks_every_body a w s :
  m < 0 →
  objs w a !! "raw_content" = Some (PyStr s) →
  raw_content_part m a w
  = (w, inr ("Full source content limited to " +:+ pretty m +:+ " tokens: "
             +:+ take (Z.to_nat (len s + m * 4)) s +:+ "... [truncated]"
             +:+ nl +:+ nl))
  ∧ len (take (Z.to_nat (len s + m * 4)) s) = Z.max 0 (len s + m * 4).
Proof.
  intros Hm Hraw. split.
  - unfold raw_content_part. rewrite run_get_default, Hraw. simpl.
    rewrite run_bind_ret.
    assert ((m * 4 <? len s) = true) as ->
      by (apply Z.ltb_lt; unfold len; lia).
    unfold slice_to.
    assert ((m * 4 <? 0) = true) as -> by (apply Z.ltb_lt; lia).
    unfold mret, py_ret. by rewrite ?app_assoc_str.
  - unfold len. rewrite take_length; [lia |]. unfold len. lia.
Qed.

End body_bounds.

(** The record [rec_none] under a budget of 10 tokens: an empty body. *)
Lemma body_length_bound_witness :
  let w := World (store_of [adapted Examples.rec_none]) [] in
  ∃ w' body,
    raw_content_part 10 0%nat w
    = (w', inr ("Full source content limited to 10 tokens: "
                +:+ body +:+ nl +:+ nl))
    ∧ objs w' = objs w
    ∧ len body ≤ 55.
Proof.
  intros w.
  refine (body_length_bound 10 0%nat w (PyStr "u3") _ eq_refl). lia.
Defined.

(** A budget of -1 token: the 40-character body keeps 36 characters. *)
Lemma negative_budget_marks_every_body_witness :
  let w := World (store_of [adapted Examples.rec_exact]) [] in
  raw_content_part (-1) 0%nat w
  = (w, inr ("Full source content limited to -1 tokens: "
             +:+ "012345678901234567890123456789012345... [truncated]"
             +:+ nl +:+ nl)).
Proof.
  intros w.
  refine (proj1 (negative_budget_marks_every_body (-1) 0%nat w
    "0123456789012345678901234567890123456789" _ eq_refl)). lia.
Defined.

Section printed_warnings.
Context (m : Z).
Implicit Types (w : world) (l : list addr).

Lemma warnings_of_kept (h : addr → dict) (xs : list addr) :
  concat ((λ a, warnings_of true (h a)) <$> xs)
  = (λ a, "Warning: No raw_content found for source "
          +:+ py_format (url_of (h a)))
    <$> filter (λ a, h a !! "raw_content" = Some PyNone) xs.
Proof.
  induction xs as [|x xs IH]; [done |].
  rewrite fmap_cons, filter_cons. cbn [concat]. rewrite IH.
  unfold warnings_of at 1, warnings.
  destruct (h x !! "raw_content") as [[s|]|] eqn:Hraw.
  - by rewrite decide_False.
  - rewrite decide_True by done. reflexivity.
  - by rewrite decide_False.
Qed.

(** With [include_raw_content] true the call prints one warning line for
    each kept record whose [raw_content] is [None], in the order of the
    kept records and with the URL of the record; records dropped as
    duplicates print nothing. *)
Theorem warnings_follow_kept_records l w :
  Forall (λ a, well_formed (objs w a)) l →
  ∃ w' out,
    deduplicate_and_format_sources l m true w = (w', inr out)
    ∧ stdout w'
      = stdout w
        ++ ((λ a, "Warning: No raw_content found for source "
                  +:+ py_format (url_of (objs w a)))
            <$> filter (λ a, objs w a !! "raw_content" = Some PyNone)
                       (first_seen (url_in w) l)).
Proof.
  intros Hl.
  destruct (formatter_returns m true l w) as (w' & Hrun & Hout & _).
  - eapply Forall_impl; [exact Hl |]. by intros a [? _].
  - apply Forall_forall. intros a Ha%first_seen_elem.
    by destruct (proj1 (Forall_forall _ _) Hl a Ha).
  - exists w', (report m true (objs w) l). split; [done |].
    by rewrite Hout, warnings_of_kept.
Qed.

End printed_warnings.

(** The record [rec_none] three times, between two other records: one
    warning. *)
Lemma warnings_follow_kept_records_witness :
  let w := World (store_of [Examples.rec_none; Examples.rec_long;
                            Examples.rec_none; Examples.rec_none]) ["log"] in
  ∃ w' out,
    deduplicate_and_format_sources [0; 1; 2; 3]%nat 10 true w = (w', inr out)
    ∧ stdout w' = ["log"; "Warning: No raw_content found for source u3"].
Proof.
  intros w.
  destruct (warnings_follow_kept_records 10 [0; 1; 2; 3]%nat w)
    as (w' & out & Hrun & Hout).
  - repeat apply Forall_cons_2; try apply Forall_nil_2;
      (split; [split |]); vm_compute; eauto.
  - exists w', out. split; [exact Hrun | exact Hout].
Defined.

Section repeated_calls.
Context (m : Z) (inc : bool).
Implicit Types (w : world) (l : list addr).

(** The writes of the first loop are idempotent: once a call has returned,
    another call on the same list, with any budget and flag, returns as
    well and leaves every record as the first call left it. *)
Theorem second_call_keeps_records l w w' out (m2 : Z) (inc2 : bool) :
  deduplicate_and_format_sources l m inc w = (w', inr out) →
  ∃ w'' out2,
    deduplicate_and_format_sources l m2 inc2 w' = (w'', inr out2)
    ∧ ∀ b, objs w'' b = objs w' b.
Proof.
  intros Hrun.
  destruct (formatter_returned m inc l w w' out Hrun) as [Hl Ht].
  destruct (formatter_returns m inc l w Hl Ht) as (w1 & Hrun1 & _ & Hobjs).
  rewrite Hrun in Hrun1. injection Hrun1 as <- _.
  assert (∀ a, a ∈ l → objs w' a = adapted (objs w a)) as Hin
    by (intros a Ha; by rewrite Hobjs, decide_True).
  destruct (formatter_returns m2 inc2 l w') as (w'' & Hrun2 & _ & Hobjs2).
  - apply Forall_forall. intros a Ha. rewrite Hin by done.
    apply keyed_adapted. by apply (proj1 (Forall_forall _ _) Hl).
  - assert (first_seen (url_in w') l = first_seen (url_in w) l) as ->.
    { apply first_seen_ext. intros a Ha. rewrite Hin by done.
      apply url_of_adapted. }
    apply Forall_forall. intros a Ha.
    rewrite Hin by (by eapply first_seen_elem).
    rewrite adapted_lookup_ne by done.
    by apply (proj1 (Forall_forall _ _) Ht).
  - exists w'', (report m2 inc2 (objs w') l). split; [done |].
    intros b. rewrite Hobjs2. case_decide as Hb; [|done].
    by rewrite Hin, adapted_idemp.
Qed.

(** The report does not read the [url] and [content] a record may already
    carry: two worlds whose records agree on every other key give the same
    result, be it a report or a [KeyError]. *)
Theorem preset_url_content_ignored l w1 w2 :
  (∀ a key, a ∈ l → key ≠ "url" → key ≠ "content" →
            objs w1 a !! key = objs w2 a !! key) →
  (deduplicate_and_format_sources l m inc w1).2
  = (deduplicate_and_format_sources l m inc w2).2.
Proof.
  intros Hsame.
  assert (∀ a, a ∈ l → keyed (objs w1 a) ↔ keyed (objs w2 a)) as Hkeyed.
  { intros a Ha. unfold keyed. by rewrite !(Hsame a) by done. }
  assert (∀ a, a ∈ l → url_of (objs w1 a) = url_of (objs w2 a)) as Hurl.
  { intros a Ha. unfold url_of. by rewrite (Hsame a) by done. }
  destruct (decide (Forall (λ a, keyed (objs w1 a)) l)) as [Hl|Hl].
  - assert (Forall (λ a, keyed (objs w2 a)) l) as Hl2.
    { apply Forall_forall. intros a Ha. apply Hkeyed; [done |].
      by apply (proj1 (Forall_forall _ _) Hl). }
    rewrite !formatter_result_keyed by done.
    rewrite (first_seen_ext (url_in w1) (url_in w2)) by done.
    assert (report m inc (objs w1) l = report m inc (objs w2) l) as ->.
    { apply report_ext. intros a Ha. split; [by apply Hurl |].
      unfold block_of. by rewrite Hurl, !(Hsame a) by done. }
    apply decide_ext. rewrite !Forall_forall.
    split; intros Hall a Ha; specialize (Hall a Ha);
      pose proof (first_seen_elem _ _ _ Ha) as Hin;
      [by rewrite <- (Hsame a) | by rewrite (Hsame a)].
  - apply first_failure in Hl as (pre & a & post & -> & Hpre & Ha);
      [|apply _].
    rewrite !formatter_raises_key.
    + unfold missing_key. rewrite (Hsame a); [done | | done | done].
      apply elem_of_app. right. by left.
    + apply Forall_forall. intros b Hb. apply Hkeyed.
      * apply elem_of_app. by left.
      * by apply (proj1 (Forall_forall _ _) Hpre).
    + intros Hk. apply Ha, Hkeyed; [|done]. apply elem_of_app. right. by left.
    + done.
    + done.
Qed.

End repeated_calls.

(** After a call with budget 10 and the flag on, a call with budget 3 and
    the flag off returns and changes no record. *)
Lemma second_call_keeps_records_witness :
  let w := World (store_of [Examples.rec_long; Examples.rec_dup_untitled]) [] in
  let r := deduplicate_and_format_sources [0; 1]%nat 10 true w in
  ∃ w'' out2,
    deduplicate_and_format_sources [0; 1]%nat 3 false r.1 = (w'', inr out2)
    ∧ ∀ b, objs w'' b = objs r.1 b.
Proof.
  intros w r.
  refine (second_call_keeps_records 10 true [0; 1]%nat w r.1
    (strip (banner +:+ block_of 10 true Examples.rec_long)) 3 false _).
  transitivity (r.1, r.2); [apply surjective_pairing |].
  apply (f_equal (pair r.1)). vm_compute. reflexivity.
Defined.

(** The record [rec_long] with and without a stale [url] and [content]:
    one and the same report. *)
Lemma preset_url_content_ignored_witness :
  let w1 := World (store_of [Examples.rec_long]) [] in
  let w2 := World (store_of [<["url" := PyStr "stale"]>
                              (<["content" := PyNone]> Examples.rec_long)]) [] in
  (deduplicate_and_format_sources [0%nat] 10 true w1).2
  = (deduplicate_and_format_sources [0%nat] 10 true w2).2.
Proof.
  intros w1 w2.
  apply (preset_url_content_ignored 10 true [0%nat] w1 w2).
  intros a key Ha%list_elem_of_singleton Hu Hc. rewrite Ha.
  change (objs w2 0%nat)
    with (<["url" := PyStr "stale"]> (<["content" := PyNone]> (objs w1 0%nat))).
  by rewrite !lookup_insert_ne.
Defined.

Section failed_calls.
Context (m : Z) (inc : bool).
Implicit Types (w : world) (l pre post : list addr) (a b : addr).

(** The world in which the first loop stops at a record without [link] or
    [snippet]. *)
Lemma dedup_loop_err_world pre a post : ∀ u w,
  Forall (λ b, keyed (objs w b)) pre →
  ¬ keyed (objs w a) →
  let w' := (dedup_loop (pre ++ a :: post) u w).1 in
  stdout w' = stdout w
  ∧ (∀ b, b ∈ pre → objs w' b = adapted (objs w b))
  ∧ (∀ b, b ∉ pre → b ≠ a → objs w' b = objs w b)
  ∧ (∀ link, objs w a !! "link" = Some link →
             objs w' a = <["url" := link]> (objs w a))
  ∧ (objs w a !! "link" = None → objs w' a = objs w a).
Proof.
  induction pre as [|c pre IH]; intros u w Hpre Ha.
  - change (dedup_loop ([] ++ a :: post) u w)
      with ((dedup_step a u ≫= λ u', dedup_loop post u') w).
    rewrite run_bind.
    destruct (objs w a !! "link") as [link|] eqn:Hlk.
    + destruct (objs w a !! "snippet") as [snippet|] eqn:Hsn.
      { destruct Ha. split; by eexists. }
      rewrite (dedup_step_no_snippet _ _ _ link) by done. cbn.
      split; [done |]. split; [by intros b ?%elem_of_nil |].
      split; [intros b _ Hne; by rewrite store_other |].
      split; [|done]. intros ? [= <-]. by rewrite store_same.
    + rewrite dedup_step_no_link by done. cbn.
      split; [done |]. split; [by intros b ?%elem_of_nil |]. done.
  - apply Forall_cons in Hpre as [Hc Hpre].
    pose proof Hc as [[link Hlk] [snippet Hsn]].
    assert (a ≠ c) as Hac by (intros ->; done).
    change (dedup_loop ((c :: pre) ++ a :: post) u w)
      with ((dedup_step c u ≫= λ u', dedup_loop (pre ++ a :: post) u') w).
    rewrite run_bind, (dedup_step_ok c u w link snippet Hlk Hsn).
    set (w1 := World _ _).
    assert (∀ b, objs w1 b
                 = if decide (b = c) then adapted (objs w c) else objs w b)
      as Hw1 by (intros b; by apply step_store).
    assert (objs w1 a = objs w a) as Hw1a by (by rewrite Hw1, decide_False).
    destruct (IH (if decide (link ∈ u.*1) then u else u ++ [(link, c)]) w1)
      as (Hout & Hin & Hother & Hsome & Hnone).
    { eapply Forall_impl; [exact Hpre |]. intros b Hb. simpl in Hb.
      rewrite Hw1. destruct (decide (b = c)) as [->|Hne]; [|done].
      by apply keyed_adapted. }
    { by rewrite Hw1a. }
    cbv zeta. split; [by rewrite Hout |].
    split; [|split; [|split]].
    + intros b [->|Hb]%elem_of_cons.
      * destruct (decide (c ∈ pre)) as [Hcp|Hcp].
        -- rewrite Hin, Hw1, decide_True by done. apply adapted_idemp.
        -- rewrite Hother, Hw1, decide_True by done. done.
      * rewrite Hin, Hw1 by done.
        destruct (decide (b = c)) as [->|Hne]; [apply adapted_idemp | done].
    + intros b [Hbc Hb]%not_elem_of_cons Hba.
      by rewrite Hother, Hw1, decide_False.
    + intros link' Hlk'. rewrite (Hsome link') by (by rewrite Hw1a).
      by rewrite Hw1a.
    + intros Hno. rewrite Hnone by (by rewrite Hw1a). by rewrite Hw1a.
Qed.

(** A call that stops at a record without [link] or [snippet] has already
    written [url] and [content] into the records before it, has written
    [url] into the failing record when that one has a [link], has touched
    no other record, and has printed nothing. *)
Theorem failure_leaves_partial_writes pre a post w :
  Forall (λ b, keyed (objs w b)) pre →
  ¬ keyed (objs w a) →
  let r := deduplicate_and_format_sources (pre ++ a :: post) m inc w in
  (∃ key, r.2 = inl (KeyError key))
  ∧ stdout r.1 = stdout w
  ∧ (∀ b, b ∈ pre → objs r.1 b = adapted (objs w b))
  ∧ (∀ b, b ∉ pre → b ≠ a → objs r.1 b = objs w b)
  ∧ (∀ link, objs w a !! "link" = Some link →
             objs r.1 a = <["url" := link]> (objs w a))
  ∧ (objs w a !! "link" = None → objs r.1 a = objs w a).
Proof.
  intros Hpre Ha r.
  pose proof (dedup_loop_err pre a post [] w Hpre Ha) as Herr.
  pose proof (dedup_loop_err_world pre a post [] w Hpre Ha) as Hworld.
  cbv zeta in Hworld. subst r. unfold deduplicate_and_format_sources.
  rewrite run_bind.
  destruct (dedup_loop (pre ++ a :: post) [] w) as [w1 [e|u1]];
    simpl in *; [|congruence].
  split; [|done]. injection Herr as ->. by eexists.
Qed.

(** The second loop up to the first record without a title: the warnings
    of the records before it are printed, the store is left alone. *)
Lemma format_loop_err_world pre a post : ∀ txt w,
  Forall (λ b, renderable (objs w b)) pre →
  objs w a !! "title" = None →
  format_loop m inc (pre ++ a :: post) txt w
  = (World (objs w)
           (stdout w ++ concat ((λ b, printed inc (objs w b)) <$> pre)),
     inl (KeyError "title")).
Proof.
  induction pre as [|b pre IH]; intros txt w Hpre Ha.
  - simpl app. rewrite format_loop_cons, format_step_no_title by done.
    simpl. by rewrite app_nil_r, world_eta.
  - apply Forall_cons in Hpre as [Hb Hpre].
    change ((b :: pre) ++ a :: post) with (b :: (pre ++ a :: post)).
    rewrite format_loop_cons, (format_step_rendered _ _ _ _ _ Hb).
    rewrite IH by done. cbn [objs stdout fmap list_fmap concat].
    by rewrite app_assoc.
Qed.

(** A call that raises [KeyError "title"] has run the first loop to its
    end: every record of the list carries [url] and [content], and the
    warnings of the kept records before the untitled one are printed. *)
Theorem title_failure_keeps_writes l pre a post w :
  Forall (λ b, keyed (objs w b)) l →
  first_seen (url_in w) l = pre ++ a :: post →
  Forall (λ b, is_Some (objs w b !! "title")) pre →
  objs w a !! "title" = None →
  let r := deduplicate_and_format_sources l m inc w in
  r.2 = inl (KeyError "title")
  ∧ (∀ b, objs r.1 b = if decide (b ∈ l) then adapted (objs w b) else objs w b)
  ∧ stdout r.1
    = stdout w ++ concat ((λ b, warnings_of inc (objs w b)) <$> pre).
Proof.
  intros Hl Hfs Hpre Ha r.
  destruct (dedup_loop_ok (url_in w) l [] w) as (w1 & Hrun & Hout & Hobjs);
    [done | done |].
  assert (∀ b, b ∈ first_seen (url_in w) l →
               objs w1 b = adapted (objs w b) ∧ keyed (objs w b)) as Hkept.
  { intros b Hb. pose proof (first_seen_elem _ _ _ Hb) as Hin.
    rewrite Hobjs, decide_True by done. split; [done |].
    by apply (proj1 (Forall_forall _ _) Hl). }
  assert (∀ b, b ∈ pre → objs w1 b = adapted (objs w b) ∧ keyed (objs w b))
    as Hbefore.
  { intros b Hb. apply Hkept. rewrite Hfs. apply elem_of_app. by left. }
  subst r. unfold deduplicate_and_format_sources.
  rewrite run_bind, Hrun, values_retained, Hfs, run_bind.
  rewrite format_loop_err_world.
  - cbn [fst snd objs stdout]. split; [done |]. split; [done |].
    rewrite Hout. f_equal. f_equal.
    apply Forall_fmap_ext_1, Forall_forall. intros b Hb.
    destruct (Hbefore b Hb) as [-> Hk]. by apply printed_adapted.
  - apply Forall_forall. intros b Hb.
    destruct (Hbefore b Hb) as [-> Hk].
    apply renderable_adapted; [done |].
    by apply (proj1 (Forall_forall _ _) Hpre).
  - destruct (Hkept a) as [-> Hk].
    { rewrite Hfs. apply elem_of_app. right. by left. }
    by rewrite adapted_lookup_ne.
Qed.

End failed_calls.

(** The second of three records has a [link] and no [snippet]: the first
    record is written, the second gets its [url], the third is untouched. *)
Lemma failure_leaves_partial_writes_witness :
  let w := World (store_of [Examples.rec_long; Examples.rec_no_snippet;
                            Examples.rec_exact]) [] in
  let r := deduplicate_and_format_sources [0; 1; 2]%nat 10 true w in
  (∃ key, r.2 = inl (KeyError key))
  ∧ stdout r.1 = stdout w
  ∧ (∀ b, b ∈ [0%nat] → objs r.1 b = adapted (objs w b))
  ∧ (∀ b, b ∉ [0%nat] → b ≠ 1%nat → objs r.1 b = objs w b)
  ∧ (∀ link, objs w 1%nat !! "link" = Some link →
             objs r.1 1%nat = <["url" := link]> (objs w 1%nat))
  ∧ (objs w 1%nat !! "link" = None → objs r.1 1%nat = objs w 1%nat).
Proof.
  intros w.
  apply (failure_leaves_partial_writes 10 true [0%nat] 1%nat [2%nat] w).
  - repeat apply Forall_cons_2; try apply Forall_nil_2;
      split; vm_compute; eauto.
  - intros [_ [v Hv]]. vm_compute in Hv. discriminate.
Defined.

(** The second kept record has no title: the call raises
    [KeyError "title"] after both records were written. *)
Lemma title_failure_keeps_writes_witness :
  let w := World (store_of [Examples.rec_none; Examples.rec_untitled]) [] in
  let r := deduplicate_and_format_sources [0; 1]%nat 10 true w in
  r.2 = inl (KeyError "title")
  ∧ (∀ b, objs r.1 b
          = if decide (b ∈ [0; 1]%nat) then adapted (objs w b) else objs w b)
  ∧ stdout r.1 = ["Warning: No raw_content found for source u3"].
Proof.
  intros w.
  apply (title_failure_keeps_writes 10 true [0; 1]%nat [0%nat] 1%nat [] w).
  - repeat apply Forall_cons_2; try apply Forall_nil_2;
      split; vm_compute; eauto.
  - reflexivity.
  - repeat apply Forall_cons_2; try apply Forall_nil_2; vm_compute; eauto.
  - reflexivity.
Defined.

Section bullets_more.
Implicit Types (w : world) (l pre post : list addr) (a : addr).

(** The bullet of a record, for any values under [title] and [url]. *)
Lemma bullet_lines_values l w :
  Forall (λ a, is_Some (objs w a !! "title") ∧ is_Some (objs w a !! "url")) l →
  bullet_lines l w
  = (w, inr ((λ a, "* " +:+ py_format (default PyNone (objs w a !! "title"))
                   +:+ " : "
                   +:+ py_format (default PyNone (objs w a !! "url")))
             <$> l)).
Proof.
  induction 1 as [|a l [[title Ht] [url Hu]] _ IH]; [done |].
  change (bullet_lines (a :: l) w)
    with ((bullet_line a ≫= λ line,
           bullet_lines l ≫= λ lines, mret (line :: lines)) w).
  rewrite run_bind, (bullet_line_ok _ _ _ _ Ht Hu).
  rewrite run_bind, IH. rewrite fmap_cons. by rewrite Ht, Hu.
Qed.

Lemma bullet_line_world a w : (bullet_line a w).1 = w.
Proof.
  unfold bullet_line.
  destruct (objs w a !! "title") as [title|] eqn:Ht.
  - rewrite (run_getitem_Some _ _ title) by done.
    destruct (objs w a !! "url") as [url|] eqn:Hu.
    + by rewrite (run_getitem_Some _ _ url).
    + by rewrite run_getitem_None.
  - by rewrite run_getitem_None.
Qed.

Lemma bullet_lines_world l w : (bullet_lines l w).1 = w.
Proof.
  induction l as [|a l IH]; [done |].
  change (bullet_lines (a :: l) w)
    with ((bullet_line a ≫= λ line,
           bullet_lines l ≫= λ lines, mret (line :: lines)) w).
  rewrite run_bind. pose proof (bullet_line_world a w) as Ha.
  destruct (bullet_line a w) as [w1 [e|line]]; simpl in Ha; subst w1;
    [done |].
  rewrite run_bind.
  destruct (bullet_lines l w) as [w2 [e|lines]]; simpl in IH; by subst w2.
Qed.

(** [format_sources] only reads: whether it returns or raises, the records
    and the standard output are as they were. *)
Theorem bullets_leave_world l w : (format_sources l w).1 = w.
Proof.
  unfold format_sources. rewrite run_bind.
  pose proof (bullet_lines_world l w) as Hl.
  destruct (bullet_lines l w) as [w1 [e|lines]]; simpl in Hl; by subst w1.
Qed.

(** [format_sources] raises at the first record without a title or
    without a url: [KeyError "title"] when the title is missing, and
    [KeyError "url"] when the title is there and the url is not. *)
Theorem bullets_missing_key pre a post w :
  Forall (λ b, is_Some (objs w b !! "title") ∧ is_Some (objs w b !! "url"))
         pre →
  (objs w a !! "title" = None →
   (format_sources (pre ++ a :: post) w).2 = inl (KeyError "title"))
  ∧ (is_Some (objs w a !! "title") → objs w a !! "url" = None →
     (format_sources (pre ++ a :: post) w).2 = inl (KeyError "url")).
Proof.
  intros Hpre.
  assert (∀ key, (bullet_line a w).2 = inl (KeyError key) →
            (format_sources (pre ++ a :: post) w).2 = inl (KeyError key))
    as Hfail.
  { intros key Ha. unfold format_sources. rewrite run_bind.
    assert ((bullet_lines (pre ++ a :: post) w).2 = inl (KeyError key))
      as Hlines.
    { clear -Hpre Ha. induction Hpre as [|b pre [[t Ht] [u Hu]] _ IH].
      - change (bullet_lines ([] ++ a :: post) w)
          with ((bullet_line a ≫= λ line,
                 bullet_lines post ≫= λ lines, mret (line :: lines)) w).
        rewrite run_bind.
        destruct (bullet_line a w) as [w1 [e|line]]; simpl in *; congruence.
      - change (bullet_lines ((b :: pre) ++ a :: post) w)
          with ((bullet_line b ≫= λ line,
                 bullet_lines (pre ++ a :: post) ≫= λ lines,
                 mret (line :: lines)) w).
        rewrite run_bind, (bullet_line_ok _ _ _ _ Ht Hu), run_bind.
        destruct (bullet_lines (pre ++ a :: post) w) as [w1 [e|lines]];
          simpl in *; congruence. }
    destruct (bullet_lines (pre ++ a :: post) w) as [w1 [e|lines]];
      simpl in *; congruence. }
  split.
  - intros Ht. apply Hfail. unfold bullet_line.
    by rewrite run_getitem_None.
  - intros [title Ht] Hu. apply Hfail. unfold bullet_line.
    rewrite (run_getitem_Some _ _ title) by done.
    by rewrite run_getitem_None.
Qed.

End bullets_more.

(** A backend record has [link] and no [url]: before the formatter has run,
    the bullet list of such a record raises [KeyError "url"]. *)
Lemma bullets_missing_key_witness :
  let w := World (store_of [Examples.bullet_A; Examples.rec_long;
                            Examples.rec_untitled]) [] in
  (format_sources [0; 2]%nat w).2 = inl (KeyError "title")
  ∧ (format_sources [0; 1]%nat w).2 = inl (KeyError "url").
Proof.
  intros w. split.
  - refine (proj1 (bullets_missing_key [0%nat] 2%nat [] w _) eq_refl).
    repeat apply Forall_cons_2; try apply Forall_nil_2;
      split; vm_compute; eauto.
  - refine (proj2 (bullets_missing_key [0%nat] 1%nat [] w _) _ eq_refl).
    + repeat apply Forall_cons_2; try apply Forall_nil_2;
        split; vm_compute; eauto.
    + vm_compute. eauto.
Defined.

Section formatter_then_bullets.
Context (m : Z) (inc : bool).
Implicit Types (w : world) (l : list addr).

(** The two formatters compose: after [deduplicate_and_format_sources] has
    returned on well-formed backend records, [format_sources] on the same
    list returns one bullet per record of the list, duplicates included,
    with the title of the record and its [link] as the URL. *)
Theorem bullets_after_formatting l w :
  Forall (λ a, well_formed (objs w a)) l →
  ∃ w' out,
    deduplicate_and_format_sources l m inc w = (w', inr out)
    ∧ format_sources l w'
      = (w', inr (join nl
           ((λ a, "* " +:+ py_format (default PyNone (objs w a !! "title"))
                  +:+ " : " +:+ py_format (url_of (objs w a)))
            <$> l))).
Proof.
  intros Hl.
  destruct (formatter_returns m inc l w) as (w' & Hrun & _ & Hobjs).
  { eapply Forall_impl; [exact Hl |]. by intros a [? _]. }
  { apply Forall_forall. intros a Ha%first_seen_elem.
    by destruct (proj1 (Forall_forall _ _) Hl a Ha). }
  exists w', (report m inc (objs w) l). split; [done |].
  assert (∀ a, a ∈ l →
            objs w' a !! "title" = objs w a !! "title"
            ∧ is_Some (objs w a !! "title")
            ∧ objs w' a !! "url" = Some (url_of (objs w a))) as Hw'.
  { intros a Ha. destruct (proj1 (Forall_forall _ _) Hl a Ha) as [Hk Ht].
    rewrite Hobjs, decide_True by done.
    rewrite adapted_lookup_ne, adapted_url by done. done. }
  unfold format_sources. rewrite run_bind, bullet_lines_values.
  - unfold mret, py_ret. do 3 f_equal.
    apply Forall_fmap_ext_1, Forall_forall. intros a Ha.
    destruct (Hw' a Ha) as (-> & _ & ->). done.
  - apply Forall_forall. intros a Ha.
    destruct (Hw' a Ha) as (-> & Ht & ->). eauto.
Qed.

End formatter_then_bullets.

(** The report keeps one of the two records with the URL [u1]; the bullet
    list made afterwards has both. *)
Lemma bullets_after_formatting_witness :
  let w := World (store_of [Examples.rec_long; Examples.rec_exact;
                            Examples.rec_long]) [] in
  ∃ w' out,
    deduplicate_and_format_sources [0; 1; 2]%nat 10 true w = (w', inr out)
    ∧ format_sources [0; 1; 2]%nat w'
      = (w', inr ("* A : u1" +:+ nl +:+ "* B : u2" +:+ nl +:+ "* A : u1")).
Proof.
  intros w.
  apply (bullets_after_formatting 10 true [0; 1; 2]%nat w).
  repeat apply Forall_cons_2; try apply Forall_nil_2;
    (split; [split |]); vm_compute; eauto.
Defined.

Section report_end.
Context (m : Z).
Implicit Types (w : world) (l pre : list addr) (a : addr) (s : string).

(** When the last kept record has a body longer than the limit, the final
    [strip] removes the two newlines after the marker and nothing else:
    the report ends with the cut body and ["... [truncated]"]. *)
Theorem truncated_report_ends_with_marker l pre a s w :
  0 ≤ m →
  Forall (λ b, well_formed (objs w b)) l →
  first_seen (url_in w) l = pre ++ [a] →
  objs w a !! "raw_content" = Some (PyStr s) →
  m * 4 < len s →
  ∃ w' front,
    deduplicate_and_format_sources l m true w
    = (w', inr (front +:+ slice_to s (m * 4) +:+ "... [truncated]")).
Proof.
  intros Hm Hl Hfs Hraw Hlong.
  destruct (formatter_returns m true l w) as (w' & Hrun & _).
  { eapply Forall_impl; [exact Hl |]. by intros b [? _]. }
  { apply Forall_forall. intros b Hb%first_seen_elem.
    by destruct (proj1 (Forall_forall _ _) Hl b Hb). }
  exists w'. rewrite Hrun. unfold report. rewrite Hfs, fmap_app, cat_app.
  cbn [fmap list_fmap cat]. unfold block_of at 2, block, body_text, clipped.
  rewrite Hraw, (proj2 (Z.ltb_lt _ _)) by done.
  set (before := cat ((λ b, block_of m true (objs w b)) <$> pre)).
  set (head := header_text _ _ _).
  set (tail := marker +:+ nl +:+ nl).
  assert (rstrip tail = marker) as Htail by done.
  assert (banner +:+ before
            +:+ (head +:+ "Full source content limited to " +:+ pretty m
                 +:+ " tokens: " +:+ (slice_to s (m * 4) +:+ marker)
                 +:+ nl +:+ nl) +:+ ""
          = banner +:+ ((before +:+ head
                         +:+ "Full source content limited to " +:+ pretty m
                         +:+ " tokens: " +:+ slice_to s (m * 4)) +:+ tail))
    as -> by (subst tail; by rewrite !app_assoc_str, app_nil_r_str).
  rewrite strip_banner.
  set (body := before +:+ head +:+ "Full source content limited to "
               +:+ pretty m +:+ " tokens: " +:+ slice_to s (m * 4)).
  assert (nl +:+ nl +:+ body +:+ tail = (nl +:+ nl +:+ body) +:+ tail) as ->
    by (by rewrite !app_assoc_str).
  rewrite rstrip_app by (by rewrite Htail). rewrite Htail.
  exists ("Sources:" +:+ nl +:+ nl +:+ before +:+ head
          +:+ "Full source content limited to " +:+ pretty m +:+ " tokens: ").
  do 2 f_equal. subst body. unfold marker. by rewrite !app_assoc_str.
Qed.

End report_end.

(** One record with a 43-character body under a budget of 10 tokens. *)
Lemma truncated_report_ends_with_marker_witness :
  let w := World (store_of [Examples.rec_long]) [] in
  ∃ w' front,
    deduplicate_and_format_sources [0%nat] 10 true w
    = (w', inr (front +:+ "0123456789012345678901234567890123456789"
                +:+ "... [truncated]")).
Proof.
  intros w.
  refine (truncated_report_ends_with_marker 10 [0%nat] [] 0%nat
    "0123456789012345678901234567890123456789XYZ" w _ _ eq_refl eq_refl _).
  - lia.
  - repeat apply Forall_cons_2; try apply Forall_nil_2;
      (split; [split |]); vm_compute; eauto.
  - unfold len. simpl. lia.
Defined.

Section distinct_urls.
Context (m : Z) (inc : bool).
Implicit Types (w : world) (l : list addr).

Lemma filter_other_keys (key : addr → pyval) (v : pyval) l :
  v ∉ key <$> l → filter (λ b, key b ≠ v) l = l.
Proof.
  induction l as [|b l IH]; [done |].
  rewrite fmap_cons. intros [Hvb Hv]%not_elem_of_cons.
  rewrite filter_cons_True by done. by rewrite IH.
Qed.

Lemma first_seen_distinct (key : addr → pyval) l :
  NoDup (key <$> l) → first_seen key l = l.
Proof.
  induction l as [|a l IH]; [done |].
  rewrite fmap_cons. intros [Ha Hl]%NoDup_cons. simpl. rewrite IH by done.
  by rewrite filter_other_keys.
Qed.

(** When the URLs of well-formed records are pairwise distinct, nothing is
    dropped: the report has the block of every record, in input order. *)
Theorem distinct_urls_all_kept l w :
  Forall (λ a, well_formed (objs w a)) l →
  NoDup ((λ a, url_of (objs w a)) <$> l) →
  ∃ w',
    deduplicate_and_format_sources l m inc w
    = (w', inr (strip (banner +:+
                       cat ((λ a, block_of m inc (objs w a)) <$> l)))).
Proof.
  intros Hl Hnd.
  destruct (formatter_returns m inc l w) as (w' & Hrun & _).
  { eapply Forall_impl; [exact Hl |]. by intros a [? _]. }
  { apply Forall_forall. intros a Ha%first_seen_elem.
    by destruct (proj1 (Forall_forall _ _) Hl a Ha). }
  exists w'. rewrite Hrun. unfold report.
  by rewrite (first_seen_distinct (url_in w)).
Qed.

End distinct_urls.

(** Three records with the URLs u1, u2 and u3. *)
Lemma distinct_urls_all_kept_witness :
  let w := World (store_of [Examples.rec_long; Examples.rec_exact;
                            Examples.rec_none]) [] in
  ∃ w',
    deduplicate_and_format_sources [0; 1; 2]%nat 10 false w
    = (w', inr (strip (banner +:+
                       cat ((λ a, block_of 10 false (objs w a))
                            <$> [0; 1; 2]%nat)))).
Proof.
  intros w.
  apply (distinct_urls_all_kept 10 false [0; 1; 2]%nat w).
  - repeat apply Forall_cons_2; try apply Forall_nil_2;
      (split; [split |]); vm_compute; eauto.
  - change (NoDup [PyStr "u1"; PyStr "u2"; PyStr "u3"]).
    repeat (apply NoDup_cons_2;
            [rewrite ?not_elem_of_cons; repeat split;
             [discriminate.. | apply not_elem_of_nil] |]).
    apply NoDup_nil_2.
Defined.
